(** * Sonatype Central publisher client: a shallow embedding

    The lifecycle client of [sonatype-central-publisher.py] (credentials,
    upload, status, publish, drop, the polling wait and the dispatch of
    [main]) as Rocq functions in a state-and-exception monad over an explicit
    world: environment variables, typed input, a script of HTTP exchanges with
    their latencies, the wall clock, the files that can be opened, and the
    trace of everything done so far.

    Python [str] values are sequences of Unicode code points and [bytes]
    values sequences of octets, both carried by [list N]; wall-clock time is
    an integer number of clock ticks; formatted output is kept as the pieces
    it is built from.  [setup_credentials] and the help text are not part of
    the lifecycle client and are left out. *)

From Stdlib Require Import ZArith NArith List String Ascii Bool Lia.
Import ListNotations.

Ltac Zify.zify_post_hook ::= Z.to_euclidean_division_equations.

Open Scope N_scope.

(** ** Python strings *)

Definition pystr := list N.
Definition pybytes := list N.

Definition lit (s : string) : pystr :=
  List.map N_of_ascii (list_ascii_of_string s).

Fixpoint pystr_eqb (a b : pystr) : bool :=
  match a, b with
  | [], [] => true
  | x :: a', y :: b' => N.eqb x y && pystr_eqb a' b'
  | _, _ => false
  end.

(** [str.isspace] on one code point, the table CPython uses for [str.strip()]
    without argument. *)
Definition is_space (c : N) : bool :=
  ((0x09 <=? c) && (c <=? 0x0D)) || ((0x1C <=? c) && (c <=? 0x20))
  || (c =? 0x85) || (c =? 0xA0) || (c =? 0x1680)
  || ((0x2000 <=? c) && (c <=? 0x200A))
  || (c =? 0x2028) || (c =? 0x2029) || (c =? 0x202F) || (c =? 0x205F)
  || (c =? 0x3000).

Fixpoint lstrip (s : pystr) : pystr :=
  match s with
  | c :: s' => if is_space c then lstrip s' else s
  | [] => []
  end.

Definition rstrip (s : pystr) : pystr := rev (lstrip (rev s)).

(** [s.strip()] *)
Definition strip (s : pystr) : pystr := rstrip (lstrip s).

(** [s[len(prefix):]] when [s] starts with [prefix]. *)
Fixpoint strip_prefix (prefix s : pystr) : option pystr :=
  match prefix, s with
  | [], _ => Some s
  | p :: prefix', c :: s' => if N.eqb p c then strip_prefix prefix' s' else None
  | _ :: _, [] => None
  end.

(** ** UTF-8, as [str.encode()] and [bytes.decode()] do it (strict errors) *)

Module Utf8.

(** One code point.  [None] is the [UnicodeEncodeError] that a lone
    surrogate raises. *)
Definition encode_char (c : N) : option pybytes :=
  if c <? 0x80 then Some [c]
  else if c <? 0x800 then
    Some [N.lor 0xC0 (N.shiftr c 6); N.lor 0x80 (N.land c 0x3F)]
  else if c <? 0x10000 then
    if (0xD800 <=? c) && (c <=? 0xDFFF) then None
    else Some [N.lor 0xE0 (N.shiftr c 12);
               N.lor 0x80 (N.land (N.shiftr c 6) 0x3F);
               N.lor 0x80 (N.land c 0x3F)]
  else if c <? 0x110000 then
    Some [N.lor 0xF0 (N.shiftr c 18);
          N.lor 0x80 (N.land (N.shiftr c 12) 0x3F);
          N.lor 0x80 (N.land (N.shiftr c 6) 0x3F);
          N.lor 0x80 (N.land c 0x3F)]
  else None.

Fixpoint encode (s : pystr) : option pybytes :=
  match s with
  | [] => Some []
  | c :: s' =>
      match encode_char c, encode s' with
      | Some b, Some bs => Some (b ++ bs)
      | _, _ => None
      end
  end.

Definition is_cont (b : N) : bool := (0x80 <=? b) && (b <? 0xC0).

(** The strict decoder: shortest form only, no surrogates, nothing above
    U+10FFFF. *)
Fixpoint decode (bs : pybytes) : option pystr :=
  match bs with
  | [] => Some []
  | b0 :: r0 =>
      if b0 <? 0x80 then option_map (cons b0) (decode r0)
      else if (0xC0 <=? b0) && (b0 <? 0xE0) then
        match r0 with
        | b1 :: r1 =>
            let c := (b0 - 0xC0) * 64 + (b1 - 0x80) in
            if is_cont b1 && (0x80 <=? c)
            then option_map (cons c) (decode r1) else None
        | _ => None
        end
      else if (0xE0 <=? b0) && (b0 <? 0xF0) then
        match r0 with
        | b1 :: b2 :: r2 =>
            let c := (b0 - 0xE0) * 4096 + (b1 - 0x80) * 64 + (b2 - 0x80) in
            if is_cont b1 && is_cont b2 && (0x800 <=? c)
               && negb ((0xD800 <=? c) && (c <=? 0xDFFF))
            then option_map (cons c) (decode r2) else None
        | _ => None
        end
      else if (0xF0 <=? b0) && (b0 <? 0xF8) then
        match r0 with
        | b1 :: b2 :: b3 :: r3 =>
            let c := (b0 - 0xF0) * 262144 + (b1 - 0x80) * 4096
                     + (b2 - 0x80) * 64 + (b3 - 0x80) in
            if is_cont b1 && is_cont b2 && is_cont b3
               && (0x10000 <=? c) && (c <? 0x110000)
            then option_map (cons c) (decode r3) else None
        | _ => None
        end
      else None
  end.

End Utf8.

(** ** Base64 with the standard alphabet, as [base64.b64encode] *)

Module Base64.

Definition alphabet : pystr :=
  lit "ABCDEFGHIJKLMNOPQRSTUVWXYZabcdefghijklmnopqrstuvwxyz0123456789+/"%string.

Definition pad : N := 61.

Definition char_of (i : N) : N := nth (N.to_nat i) alphabet 0.

Fixpoint b64encode (bs : pybytes) : pybytes :=
  match bs with
  | [] => []
  | [a] =>
      [char_of (N.shiftr a 2); char_of (N.shiftl (N.land a 0x03) 4); pad; pad]
  | [a; b] =>
      [char_of (N.shiftr a 2);
       char_of (N.lor (N.shiftl (N.land a 0x03) 4) (N.shiftr b 4));
       char_of (N.shiftl (N.land b 0x0F) 2); pad]
  | a :: b :: c :: rest =>
      char_of (N.shiftr a 2)
      :: char_of (N.lor (N.shiftl (N.land a 0x03) 4) (N.shiftr b 4))
      :: char_of (N.lor (N.shiftl (N.land b 0x0F) 2) (N.shiftr c 6))
      :: char_of (N.land c 0x3F)
      :: b64encode rest
  end.

(** The reference decoder of RFC 4648: inverse of the alphabet, padding only
    in the last group of four. *)
Definition index_of (c : N) : option N :=
  if (65 <=? c) && (c <=? 90) then Some (c - 65)
  else if (97 <=? c) && (c <=? 122) then Some (c - 97 + 26)
  else if (48 <=? c) && (c <=? 57) then Some (c - 48 + 52)
  else if c =? 43 then Some 62
  else if c =? 47 then Some 63
  else None.

Definition decode_last (c0 c1 c2 c3 : N) : option pybytes :=
  match index_of c0, index_of c1 with
  | Some s0, Some s1 =>
      if (c2 =? pad) && (c3 =? pad) then Some [s0 * 4 + s1 / 16]
      else
        match index_of c2 with
        | Some s2 =>
            if c3 =? pad
            then Some [s0 * 4 + s1 / 16; (s1 mod 16) * 16 + s2 / 4]
            else
              match index_of c3 with
              | Some s3 =>
                  Some [s0 * 4 + s1 / 16; (s1 mod 16) * 16 + s2 / 4;
                        (s2 mod 4) * 64 + s3]
              | None => None
              end
        | None => None
        end
  | _, _ => None
  end.

Fixpoint b64decode (cs : pybytes) : option pybytes :=
  match cs with
  | [] => Some []
  | [c0; c1; c2; c3] => decode_last c0 c1 c2 c3
  | c0 :: c1 :: c2 :: c3 :: rest =>
      match index_of c0, index_of c1, index_of c2, index_of c3, b64decode rest with
      | Some s0, Some s1, Some s2, Some s3, Some bs =>
          Some ((s0 * 4 + s1 / 16) :: ((s1 mod 16) * 16 + s2 / 4)
                :: ((s2 mod 4) * 64 + s3) :: bs)
      | _, _, _, _, _ => None
      end
  | _ => None
  end.

End Base64.

(** ** Lines 42-44 of [get_auth_header]: the header value for resolved
    credentials.  [None] is the exception [auth_string.encode()] raises. *)

Definition auth_string (username password : pystr) : pystr :=
  username ++ lit ":" ++ password.

Definition auth_header_value (username password : pystr) : option pystr :=
  match Utf8.encode (auth_string username password) with
  | Some raw => Some (lit "Bearer " ++ Base64.b64encode raw)
  | None => None
  end.

(** ** JSON values, as [response.json()] returns them

    A number is kept as an integer: the client only ever asks whether it is
    zero and whether it can be iterated. *)

Open Scope Z_scope.

Unset Elimination Schemes.
Inductive json : Type :=
| JNull
| JBool (b : bool)
| JNum (n : Z)
| JStr (s : pystr)
| JArr (items : list json)
| JObj (members : list (pystr * json)).
Set Elimination Schemes.

(** A Python [dict] with string keys, as its list of items (keys distinct). *)
Definition dict := list (pystr * json).

Fixpoint dict_get (k : pystr) (d : dict) : option json :=
  match d with
  | [] => None
  | (k', v) :: d' => if pystr_eqb k k' then Some v else dict_get k d'
  end.

(** [k in d] *)
Definition dict_mem (k : pystr) (d : dict) : bool :=
  match dict_get k d with Some _ => true | None => false end.

(** [d.get(k, dflt)]; [d.get(k)] is [get_default k JNull d]. *)
Definition get_default (k : pystr) (dflt : json) (d : dict) : json :=
  match dict_get k d with Some v => v | None => dflt end.

(** Truth value of a Python object. *)
Definition truthy (v : json) : bool :=
  match v with
  | JNull => false
  | JBool b => b
  | JNum n => negb (n =? 0)
  | JStr s => match s with [] => false | _ => true end
  | JArr l => match l with [] => false | _ => true end
  | JObj d => match d with [] => false | _ => true end
  end.

(** What [for x in v] iterates over; [None] when [v] is not iterable. *)
Definition json_iter (v : json) : option (list json) :=
  match v with
  | JArr l => Some l
  | JStr s => Some (List.map (fun c => JStr [c]) s)
  | JObj d => Some (List.map (fun kv => JStr (fst kv)) d)
  | JNull | JBool _ | JNum _ => None
  end.

(** [v == s] for a string [s]. *)
Definition json_eq_str (v : json) (s : pystr) : bool :=
  match v with JStr s' => pystr_eqb s' s | _ => false end.

(** ** Exceptions *)

(** The class of a raised exception and whether it derives from
    [Exception] ([KeyboardInterrupt] and [SystemExit] do not). *)
Record exn : Type := mkExn { exn_class : string; is_Exception : bool }.

Definition EOFError := mkExn "EOFError" true.
Definition TypeError := mkExn "TypeError" true.
Definition ValueError := mkExn "ValueError" true.
Definition AttributeError := mkExn "AttributeError" true.
Definition JSONDecodeError := mkExn "JSONDecodeError" true.
Definition UnicodeEncodeError := mkExn "UnicodeEncodeError" true.

(** ** The world the client runs in *)

Inductive http_method : Type := POST | DELETE.

Record request : Type := mkRequest {
  req_method : http_method;
  req_url : pystr;
  req_headers : list (pystr * pystr);
  req_params : list (pystr * pystr);
  req_files : list (pystr * nat)     (* field name, open file handle *)
}.

Record response : Type := mkResponse {
  status_code : Z;
  text : pystr;
  json_body : option json            (* [None]: [response.json()] raises *)
}.

Inductive http_outcome : Type :=
| Fault (e : exn)
| Reply (r : response).

(** One HTTP exchange of the script: what comes back and how much wall-clock
    time the call takes. *)
Record exchange : Type := mkExchange { latency : Z; outcome : http_outcome }.

(** Pieces of a formatted line. *)
Inductive fragment : Type :=
| FLit (s : string)
| FStr (s : pystr)
| FInt (n : Z)
| FTicks (d : Z)
| FNewline
| FJson (v : json)
| FExn (e : exn).

Inductive event : Type :=
| EPrint (line : list fragment)
| EPrompt (prompt : string)
| ERequest (r : request)
| ESleep (d : Z)
| EOpen (path : pystr) (h : nat)
| EClose (h : nat).

(** Wall-clock time is counted in clock ticks. *)
Definition ticks_per_second : Z := 1000.

Record world : Type := mkWorld {
  environ : pystr -> option pystr;   (* os.environ *)
  stdin : list pystr;                (* lines the user will type *)
  net : nat -> exchange;             (* the n-th HTTP call made gets [net n] *)
  sent : nat;                        (* HTTP calls made so far *)
  oversleep : nat -> Z;              (* extra time the n-th sleep takes *)
  slept : nat;                       (* sleeps so far *)
  clock : Z;                         (* time.time() *)
  fs : pystr -> option exn;          (* what open(path, "rb") raises, if anything *)
  opened : nat;                      (* file handles handed out so far *)
  trace : list event                 (* everything done so far, oldest first *)
}.

(** ** The monad of effectful code *)

Inductive result (A : Type) : Type :=
| Ok (a : A)
| Raise (e : exn)
| Unfinished.                        (* the loop budget of the model ran out *)
Arguments Ok {A} a.
Arguments Raise {A} e.
Arguments Unfinished {A}.

Definition M (A : Type) : Type := world -> result A * world.

Definition ret {A} (a : A) : M A := fun w => (Ok a, w).

Definition bind {A B} (m : M A) (k : A -> M B) : M B :=
  fun w =>
    match m w with
    | (Ok a, w') => k a w'
    | (Raise e, w') => (Raise e, w')
    | (Unfinished, w') => (Unfinished, w')
    end.

Definition raise {A} (e : exn) : M A := fun w => (Raise e, w).

Notation "x <- m ;; k" := (bind m (fun x => k))
  (at level 61, m at next level, right associativity).
Notation "m ;; k" := (bind m (fun _ => k))
  (at level 61, right associativity).

(** [try: body / except Exception as e: handler e] *)
Definition try_except {A} (body : M A) (handler : exn -> M A) : M A :=
  fun w =>
    match body w with
    | (Raise e, w') =>
        if is_Exception e then handler e w' else (Raise e, w')
    | other => other
    end.

(** [try: body / finally: cleanup] *)
Definition try_finally {A} (body : M A) (cleanup : M unit) : M A :=
  fun w =>
    match body w with
    | (Unfinished, w') => (Unfinished, w')
    | (r, w') =>
        match cleanup w' with
        | (Ok _, w'') => (r, w'')
        | (Raise e, w'') => (Raise e, w'')
        | (Unfinished, w'') => (Unfinished, w'')
        end
    end.

Fixpoint for_list {A} (l : list A) (body : A -> M unit) : M unit :=
  match l with
  | [] => ret tt
  | x :: l' => body x ;; for_list l' body
  end.

(** [for x in v: body x] *)
Definition for_each (v : json) (body : json -> M unit) : M unit :=
  match json_iter v with
  | Some items => for_list items body
  | None => raise TypeError
  end.

(** *** Primitive effects *)

Definition emit (e : event) : M unit :=
  fun w =>
    (Ok tt,
     mkWorld (environ w) (stdin w) (net w) (sent w) (oversleep w) (slept w)
             (clock w) (fs w) (opened w) (trace w ++ [e])).

Definition print (line : list fragment) : M unit := emit (EPrint line).

Definition os_environ_get (k : pystr) : M (option pystr) :=
  fun w => (Ok (environ w k), w).

(** [input(prompt)] and [getpass(prompt)]: the next typed line, or
    [EOFError] when there is none. *)
Definition input (prompt : string) : M pystr :=
  emit (EPrompt prompt) ;;
  fun w =>
    match stdin w with
    | [] => (Raise EOFError, w)
    | l :: rest =>
        (Ok l,
         mkWorld (environ w) rest (net w) (sent w) (oversleep w) (slept w)
                 (clock w) (fs w) (opened w) (trace w))
    end.

Definition getpass (prompt : string) : M pystr := input prompt.

Definition time_time : M Z := fun w => (Ok (clock w), w).

(** [time.sleep(d)] *)
Definition time_sleep (d : Z) : M unit :=
  if d <? 0 then raise ValueError
  else
    emit (ESleep d) ;;
    fun w =>
      (Ok tt,
       mkWorld (environ w) (stdin w) (net w) (sent w) (oversleep w)
               (S (slept w)) (clock w + d + oversleep w (slept w)) (fs w)
               (opened w) (trace w)).

(** One call of [requests.post] or [requests.delete]. *)
Definition http (r : request) : M response :=
  emit (ERequest r) ;;
  fun w =>
    let x := net w (sent w) in
    let w' :=
      mkWorld (environ w) (stdin w) (net w) (S (sent w)) (oversleep w)
              (slept w) (clock w + latency x) (fs w) (opened w) (trace w) in
    match outcome x with
    | Fault e => (Raise e, w')
    | Reply resp => (Ok resp, w')
    end.

(** [open(path, "rb")] *)
Definition open_rb (path : pystr) : M nat :=
  fun w =>
    match fs w path with
    | Some e => (Raise e, w)
    | None =>
        (Ok (opened w),
         mkWorld (environ w) (stdin w) (net w) (sent w) (oversleep w)
                 (slept w) (clock w) (fs w) (S (opened w))
                 (trace w ++ [EOpen path (opened w)]))
    end.

Definition close (h : nat) : M unit := emit (EClose h).

(** [response.json()] *)
Definition response_json (r : response) : M json :=
  match json_body r with
  | Some v => ret v
  | None => raise JSONDecodeError
  end.

(** Attribute [get] exists on dictionaries only. *)
Definition as_dict (v : json) : M dict :=
  match v with
  | JObj d => ret d
  | _ => raise AttributeError
  end.

(** ** The client *)

Definition BASE_URL : pystr := lit "https://central.sonatype.com/api/v1/publisher".

(** [get_auth_header()] *)
Definition get_auth_header : M (list (pystr * pystr)) :=
  username <- os_environ_get (lit "SONATYPE_USERNAME") ;;
  password <- os_environ_get (lit "SONATYPE_PASSWORD") ;;
  creds <-
    match username, password with
    | Some (c :: u), Some (d :: p) => ret (c :: u, d :: p)
    | _, _ =>
        (* not username or not password *)
        print [FLit "Credentials not found in environment variables."] ;;
        u' <- input "Enter your Sonatype username: " ;;
        p' <- getpass "Enter your Sonatype password/token: " ;;
        ret (u', p')
    end ;;
  match auth_header_value (fst creds) (snd creds) with
  | Some v => ret [(lit "Authorization", v)]
  | None => raise UnicodeEncodeError
  end.

(** [upload_bundle(bundle_path, name, auto_publish)].  The file name sent
    along with the handle, [Path(bundle_path).name], is left out of the
    request record. *)
Definition upload_bundle (bundle_path : pystr) (name : option pystr)
    (auto_publish : bool) : M (option pystr) :=
  print [FLit "Uploading bundle: "; FStr bundle_path] ;;
  let url := BASE_URL ++ lit "/upload" in
  let params :=
    (match name with
     | Some (c :: n) => [(lit "name", c :: n)]
     | _ => []
     end)
    ++ (if auto_publish then [(lit "publishingType", lit "AUTOMATIC")] else [])
  in
  bundle <- open_rb bundle_path ;;
  try_finally
    (try_except
       (headers <- get_auth_header ;;
        response <- http (mkRequest POST url headers params [(lit "bundle", bundle)]) ;;
        if status_code response =? 201 then
          let deployment_id := strip (text response) in
          print [FLit "Upload successful! Deployment ID: "; FStr deployment_id] ;;
          ret (Some deployment_id)
        else
          print [FLit "Error uploading bundle: "; FInt (status_code response)] ;;
          print [FStr (text response)] ;;
          ret None)
       (fun e =>
          print [FLit "Error uploading bundle: "; FExn e] ;;
          ret None))
    (close bundle).

Definition k_state : pystr := lit "deploymentState".
Definition k_errors : pystr := lit "errors".
Definition k_purls : pystr := lit "purls".

(** [check_deployment_status(deployment_id)] *)
Definition check_deployment_status (deployment_id : pystr) : M (option dict) :=
  print [FLit "Checking status for deployment: "; FStr deployment_id] ;;
  let url := BASE_URL ++ lit "/status" in
  let params := [(lit "id", deployment_id)] in
  try_except
    (headers <- get_auth_header ;;
     response <- http (mkRequest POST url headers params []) ;;
     if status_code response =? 200 then
       parsed <- response_json response ;;
       status <- as_dict parsed ;;
       print [FLit "Deployment state: ";
              FJson (get_default k_state (JStr (lit "UNKNOWN")) status)] ;;
       print [FNewline; FLit "Deployment Details:"] ;;
       print [FLit "  ID: "; FJson (get_default (lit "deploymentId") JNull status)] ;;
       print [FLit "  Name: "; FJson (get_default (lit "deploymentName") JNull status)] ;;
       print [FLit "  State: "; FJson (get_default k_state JNull status)] ;;
       (if dict_mem k_purls status && truthy (get_default k_purls JNull status) then
          print [FNewline; FLit "Package URLs:"] ;;
          for_each (get_default k_purls JNull status)
                   (fun purl => print [FLit "  - "; FJson purl])
        else ret tt) ;;
       (if dict_mem k_errors status && truthy (get_default k_errors JNull status) then
          print [FNewline; FLit "Errors:"] ;;
          for_each (get_default k_errors JNull status)
                   (fun error => print [FLit "  - "; FJson error])
        else ret tt) ;;
       ret (Some status)
     else
       print [FLit "Error checking status: "; FInt (status_code response)] ;;
       print [FStr (text response)] ;;
       ret None)
    (fun e =>
       print [FLit "Error checking status: "; FExn e] ;;
       ret None).

(** [publish_deployment(deployment_id)] *)
Definition publish_deployment (deployment_id : pystr) : M bool :=
  print [FLit "Publishing deployment: "; FStr deployment_id] ;;
  let url := BASE_URL ++ lit "/deployment/" ++ deployment_id in
  try_except
    (headers <- get_auth_header ;;
     response <- http (mkRequest POST url headers [] []) ;;
     if status_code response =? 204 then
       print [FLit "Deployment published successfully!"] ;;
       ret true
     else
       print [FLit "Error publishing deployment: "; FInt (status_code response)] ;;
       print [FStr (text response)] ;;
       ret false)
    (fun e =>
       print [FLit "Error publishing deployment: "; FExn e] ;;
       ret false).

(** [drop_deployment(deployment_id)] *)
Definition drop_deployment (deployment_id : pystr) : M bool :=
  print [FLit "Dropping deployment: "; FStr deployment_id] ;;
  let url := BASE_URL ++ lit "/deployment/" ++ deployment_id in
  try_except
    (headers <- get_auth_header ;;
     response <- http (mkRequest DELETE url headers [] []) ;;
     if status_code response =? 204 then
       print [FLit "Deployment dropped successfully!"] ;;
       ret true
     else
       print [FLit "Error dropping deployment: "; FInt (status_code response)] ;;
       print [FStr (text response)] ;;
       ret false)
    (fun e =>
       print [FLit "Error dropping deployment: "; FExn e] ;;
       ret false).

(** What one turn of a [while] loop asks for next. *)
Inductive control (A : Type) : Type :=
| Continue
| Return (a : A).
Arguments Continue {A}.
Arguments Return {A} a.

(** [not status] for what [check_deployment_status] returned. *)
Definition falsy (status : option dict) : bool :=
  match status with Some (_ :: _) => false | _ => true end.

(** The body of the [while] loop of [wait_for_deployment], lines 227-249. *)
Definition wait_body (deployment_id target_state : pystr) (check_interval : Z)
    : M (control (option dict)) :=
  status <- check_deployment_status deployment_id ;;
  match status with
  | Some ((_ :: _) as d) =>
      let current_state := get_default k_state JNull d in
      if json_eq_str current_state target_state then
        print [FLit "Deployment reached "; FStr target_state; FLit " state!"] ;;
        ret (Return status)
      else if json_eq_str current_state (lit "FAILED") then
        print [FLit "Deployment failed!"] ;;
        (if dict_mem k_errors d then
           print [FNewline; FLit "Errors:"] ;;
           for_each (get_default k_errors (JArr []) d)
                    (fun error => print [FLit "  - "; FJson error])
         else ret tt) ;;
        ret (Return status)
      else
        print [FLit "Current state: "; FJson current_state; FLit ", waiting ";
               FTicks check_interval; FLit " seconds..."] ;;
        time_sleep check_interval ;;
        ret Continue
  | _ =>
      print [FLit "Failed to check status, retrying..."] ;;
      time_sleep check_interval ;;
      ret Continue
  end.

(** The [while] loop itself; [fuel] bounds the number of turns the model
    follows. *)
Fixpoint wait_loop (fuel : nat) (deployment_id target_state : pystr)
    (check_interval timeout start_time : Z) : M (option dict) :=
  match fuel with
  | O => fun w => (Unfinished, w)
  | S fuel' =>
      now <- time_time ;;
      if now - start_time <? timeout then
        step <- wait_body deployment_id target_state check_interval ;;
        match step with
        | Return status => ret status
        | Continue =>
            wait_loop fuel' deployment_id target_state check_interval timeout
                      start_time
        end
      else
        print [FLit "Timeout reached. Deployment did not reach ";
               FStr target_state; FLit " state within "; FTicks timeout;
               FLit " seconds."] ;;
        ret None
  end.

(** [wait_for_deployment(deployment_id, target_state, check_interval, timeout)];
    the result [None] is the timeout. *)
Definition wait_for_deployment (fuel : nat) (deployment_id target_state : pystr)
    (check_interval timeout : Z) : M (option dict) :=
  print [FLit "Waiting for deployment to reach "; FStr target_state;
         FLit " state..."] ;;
  start_time <- time_time ;;
  wait_loop fuel deployment_id target_state check_interval timeout start_time.

Definition default_target_state : pystr := lit "PUBLISHED".
Definition default_check_interval : Z := 10 * ticks_per_second.
Definition default_timeout : Z := 1800 * ticks_per_second.

(** The parsed command line, for the commands that reach the lifecycle
    client. *)
Inductive command : Type :=
| CmdUpload (bundle_path : pystr) (name : option pystr) (auto_publish wait : bool)
| CmdStatus (deployment_id : pystr)
| CmdPublish (deployment_id : pystr) (wait : bool)
| CmdDrop (deployment_id : pystr).

(** The dispatch of [main()], lines 346-360. *)
Definition main (fuel : nat) (args : command) : M unit :=
  match args with
  | CmdUpload bundle_path name auto_publish wait =>
      deployment_id <- upload_bundle bundle_path name auto_publish ;;
      match deployment_id with
      | Some ((_ :: _) as id) =>
          if wait then
            wait_for_deployment fuel id default_target_state
                                default_check_interval default_timeout ;;
            ret tt
          else ret tt
      | _ => ret tt
      end
  | CmdStatus deployment_id =>
      check_deployment_status deployment_id ;; ret tt
  | CmdPublish deployment_id wait =>
      success <- publish_deployment deployment_id ;;
      if success && wait then
        wait_for_deployment fuel deployment_id default_target_state
                            default_check_interval default_timeout ;;
        ret tt
      else ret tt
  | CmdDrop deployment_id =>
      drop_deployment deployment_id ;; ret tt
  end.

Arguments lit : simpl never.

(** * Vocabulary of the statements *)

(** ** Reading a trace *)

(** Console traffic: printed lines and prompts. *)
Definition console (ev : event) : Prop :=
  match ev with EPrint _ | EPrompt _ => True | _ => False end.

Definition is_action (ev : event) : bool :=
  match ev with EPrint _ | EPrompt _ => false | _ => true end.

(** What is left of a trace once console traffic is dropped: requests,
    sleeps, opens and closes, in order. *)
Definition actions (evs : list event) : list event := filter is_action evs.

(** How many times handle [h] is closed in a stretch of trace. *)
Definition closes (h : nat) (evs : list event) : nat :=
  List.length
    (filter (fun ev => match ev with EClose h' => Nat.eqb h h' | _ => false end) evs).

(** The world after some more events and nothing else. *)
Definition said_world (evs : list event) (w : world) : world :=
  mkWorld (environ w) (stdin w) (net w) (sent w) (oversleep w) (slept w)
          (clock w) (fs w) (opened w) (trace w ++ evs).

(** The world after some more events, the last of them a sleep of [d]. *)
Definition slept_world (d : Z) (evs : list event) (w : world) : world :=
  mkWorld (environ w) (stdin w) (net w) (sent w) (oversleep w) (S (slept w))
          (clock w + d + oversleep w (slept w)) (fs w) (opened w)
          (trace w ++ evs).

(** What no operation of the client changes. *)
Definition frame (w w' : world) : Prop :=
  environ w' = environ w /\ net w' = net w /\ oversleep w' = oversleep w /\
  fs w' = fs w /\ opened w' = opened w.

(** A computation that ended, and if by an exception then by one that
    [except Exception] catches. *)
Definition catchable {A} (r : result A) : Prop :=
  match r with
  | Ok _ => True
  | Raise e => is_Exception e = true
  | Unfinished => False
  end.

(** ** Credentials *)

(** Credentials found in the environment: both variables set, neither
    empty. *)
Definition env_credentials (w : world) : option (pystr * pystr) :=
  match environ w (lit "SONATYPE_USERNAME"), environ w (lit "SONATYPE_PASSWORD") with
  | Some (c :: u), Some (d :: p) => Some (c :: u, d :: p)
  | _, _ => None
  end.

(** Credentials as [get_auth_header] resolves them: the environment when it
    has them, the next two typed lines otherwise. *)
Definition resolved_credentials (w : world) : option (pystr * pystr) :=
  match env_credentials w with
  | Some c => Some c
  | None =>
      match stdin w with
      | u :: p :: _ => Some (u, p)
      | _ => None
      end
  end.

(** Console traffic of one credential resolution. *)
Definition auth_events (w : world) : list event :=
  match env_credentials w with
  | Some _ => []
  | None =>
      [EPrint [FLit "Credentials not found in environment variables."];
       EPrompt "Enter your Sonatype username: ";
       EPrompt "Enter your Sonatype password/token: "]
  end.

(** The typed lines left after one credential resolution. *)
Definition auth_stdin (w : world) : list pystr :=
  match env_credentials w with
  | Some _ => stdin w
  | None => skipn 2 (stdin w)
  end.

(** Every element is an octet. *)
Definition octets (bs : pybytes) : Prop := Forall (fun b : N => (b < 256)%N) bs.

(** Reading a header value back: strip the scheme, undo base64, read the
    octets as UTF-8. *)
Definition decode_auth_header (value : pystr) : option pystr :=
  match strip_prefix (lit "Bearer ") value with
  | Some b64 =>
      match Base64.b64decode b64 with
      | Some raw => Utf8.decode raw
      | None => None
      end
  | None => None
  end.

(** ** Requests *)

Definition status_request (deployment_id : pystr) (headers : list (pystr * pystr))
    : request :=
  mkRequest POST (BASE_URL ++ lit "/status") headers [(lit "id", deployment_id)] [].




(** ** Status checks *)

Definition iterable (v : json) : bool :=
  match json_iter v with Some _ => true | None => false end.

(** Printing the list stored under [k], as [check_deployment_status] does
    it, goes through: the list is skipped, or it can be iterated. *)
Definition listing_ok (k : pystr) (d : dict) : bool :=
  negb (dict_mem k d && truthy (get_default k JNull d))
  || iterable (get_default k JNull d).

(** The status [check_deployment_status] reads out of a response. *)
Definition status_of (resp : response) : option dict :=
  if status_code resp =? 200 then
    match json_body resp with
    | Some (JObj d) =>
        if listing_ok k_purls d && listing_ok k_errors d then Some d else None
    | _ => None
    end
  else None.

(** What [check_deployment_status] makes of one exchange. *)
Definition check_result (x : http_outcome) : result (option dict) :=
  match x with
  | Fault e => if is_Exception e then Ok None else Raise e
  | Reply resp => Ok (status_of resp)
  end.

(** [check_deployment_status] from the request on, the headers being built;
    [check_deployment_status_unfold] shows it is the same code. *)
Definition status_exchange (deployment_id : pystr) (headers : list (pystr * pystr))
    : M (option dict) :=
  try_except
    (response <- http (status_request deployment_id headers) ;;
     if status_code response =? 200 then
       parsed <- response_json response ;;
       status <- as_dict parsed ;;
       print [FLit "Deployment state: ";
              FJson (get_default k_state (JStr (lit "UNKNOWN")) status)] ;;
       print [FNewline; FLit "Deployment Details:"] ;;
       print [FLit "  ID: "; FJson (get_default (lit "deploymentId") JNull status)] ;;
       print [FLit "  Name: "; FJson (get_default (lit "deploymentName") JNull status)] ;;
       print [FLit "  State: "; FJson (get_default k_state JNull status)] ;;
       (if dict_mem k_purls status && truthy (get_default k_purls JNull status) then
          print [FNewline; FLit "Package URLs:"] ;;
          for_each (get_default k_purls JNull status)
                   (fun purl => print [FLit "  - "; FJson purl])
        else ret tt) ;;
       (if dict_mem k_errors status && truthy (get_default k_errors JNull status) then
          print [FNewline; FLit "Errors:"] ;;
          for_each (get_default k_errors JNull status)
                   (fun error => print [FLit "  - "; FJson error])
        else ret tt) ;;
       ret (Some status)
     else
       print [FLit "Error checking status: "; FInt (status_code response)] ;;
       print [FStr (text response)] ;;
       ret None)
    (fun e =>
       print [FLit "Error checking status: "; FExn e] ;;
       ret None).

(** [status.get('deploymentState') == s] *)
Definition state_is (d : dict) (s : pystr) : bool :=
  json_eq_str (get_default k_state JNull d) s.

(** The errors of a failed deployment can be listed, as
    [wait_for_deployment] does it: there are none, or they can be iterated. *)
Definition errors_listable (d : dict) : bool :=
  negb (dict_mem k_errors d) || iterable (get_default k_errors (JArr []) d).

(** An exchange on which the status check returns no status. *)
Definition failed_check (x : http_outcome) : bool :=
  match check_result x with Ok st => falsy st | _ => false end.

(** An exchange that neither interrupts the client nor shows the target
    state or FAILED. *)
Definition quiet (target_state : pystr) (x : http_outcome) : bool :=
  match check_result x with
  | Ok (Some d) => negb (state_is d target_state) && negb (state_is d (lit "FAILED"))
  | Ok None => true
  | _ => false
  end.

(** Events a status check may leave in the trace. *)
Definition polling (deployment_id : pystr) (ev : event) : Prop :=
  match ev with
  | EPrint _ | EPrompt _ => True
  | ERequest r => exists headers, r = status_request deployment_id headers
  | _ => False
  end.

(** ** The polling loop *)

(** What [wait_body] does with the status it got, lines 229-249;
    [wait_body_unfold] shows it is the same code. *)
Definition after_check (target_state : pystr) (check_interval : Z)
    (status : option dict) : M (control (option dict)) :=
  match status with
  | Some ((_ :: _) as d) =>
      let current_state := get_default k_state JNull d in
      if json_eq_str current_state target_state then
        print [FLit "Deployment reached "; FStr target_state; FLit " state!"] ;;
        ret (Return status)
      else if json_eq_str current_state (lit "FAILED") then
        print [FLit "Deployment failed!"] ;;
        (if dict_mem k_errors d then
           print [FNewline; FLit "Errors:"] ;;
           for_each (get_default k_errors (JArr []) d)
                    (fun error => print [FLit "  - "; FJson error])
         else ret tt) ;;
        ret (Return status)
      else
        print [FLit "Current state: "; FJson current_state; FLit ", waiting ";
               FTicks check_interval; FLit " seconds..."] ;;
        time_sleep check_interval ;;
        ret Continue
  | _ =>
      print [FLit "Failed to check status, retrying..."] ;;
      time_sleep check_interval ;;
      ret Continue
  end.

(** Events a whole wait may leave in the trace: console traffic, status
    queries for this deployment, sleeps of one interval. *)
Definition waiting (deployment_id : pystr) (check_interval : Z) (ev : event) : Prop :=
  match ev with
  | EPrint _ | EPrompt _ => True
  | ERequest r => exists headers, r = status_request deployment_id headers
  | ESleep d => d = check_interval
  | _ => False
  end.

(** A sleep, if it is one, lasts exactly one interval. *)
Definition full_sleep (check_interval : Z) (ev : event) : Prop :=
  match ev with ESleep d => d = check_interval | _ => True end.


(** [k] turns of one status query and one sleep. *)
Fixpoint rounds (req : request) (interval : Z) (k : nat) : list event :=
  match k with
  | O => []
  | S k' => ERequest req :: ESleep interval :: rounds req interval k'
  end.

(** The world in which [wait_for_deployment], called in [w], makes the
    [n]-th test of its loop condition, counting from 0, the turns before it
    having gone round again: the first line is printed, then the loop body
    has run [n] times. *)
Fixpoint at_turn (n : nat) (deployment_id target_state : pystr) (check_interval : Z)
    (w : world) : world :=
  match n with
  | O =>
      said_world [EPrint [FLit "Waiting for deployment to reach "; FStr target_state;
                          FLit " state..."]] w
  | S n' =>
      snd (wait_body deployment_id target_state check_interval
             (at_turn n' deployment_id target_state check_interval w))
  end.

(** ** Sample worlds *)

Definition env_of (username password : option pystr) (k : pystr) : option pystr :=
  if pystr_eqb k (lit "SONATYPE_USERNAME") then username
  else if pystr_eqb k (lit "SONATYPE_PASSWORD") then password
  else None.

(** A fresh process with credentials [u] and [p] in the environment, every
    path readable, exact sleeps and the given network script. *)
Definition demo_world (net : nat -> exchange) : world :=
  mkWorld (env_of (Some (lit "u")) (Some (lit "p"))) [] net 0 (fun _ => 0) 0 0
          (fun _ => None) 0 [].

Definition in_state (s : string) : dict := [(k_state, JStr (lit s))].

Definition json_reply (latency : Z) (d : dict) : exchange :=
  mkExchange latency (Reply (mkResponse 200 [] (Some (JObj d)))).

Definition plain_reply (latency code : Z) (body : string) : exchange :=
  mkExchange latency (Reply (mkResponse code (lit body) None)).

(** The exchanges of [l] in turn, then [rest] for ever. *)
Definition script (l : list exchange) (rest : exchange) (n : nat) : exchange :=
  nth n l rest.

(** The body [{"deploymentState": "FAILED", "errors": null}]. *)
Definition failed_with_null_errors : dict :=
  [(k_state, JStr (lit "FAILED")); (k_errors, JNull)].

(** Two answers 500, each after [latency] ticks, then PUBLISHED. *)
Definition two_errors_then_published (latency : Z) : nat -> exchange :=
  script [plain_reply latency 500 "try later"; plain_reply latency 500 "try later"]
         (json_reply 0 (in_state "PUBLISHED")).

Definition FileNotFoundError := mkExn "FileNotFoundError" true.

(** As [demo_world], but no path can be opened. *)
Definition missing_bundle_world : world :=
  mkWorld (env_of (Some (lit "u")) (Some (lit "p"))) []
          (fun _ => plain_reply 0 201 "dep-123") 0 (fun _ => 0) 0 0
          (fun _ => Some FileNotFoundError) 0 [].

(** ** Failures and steps without a request *)

(** Why [get_auth_header] raises, if it does: no line left to read, or
    credentials that cannot be encoded. *)
Definition auth_failure (w : world) : option exn :=
  match resolved_credentials w with
  | None => Some EOFError
  | Some (u, p) =>
      match auth_header_value u p with
      | Some _ => None
      | None => Some UnicodeEncodeError
      end
  end.

(** No HTTP request among the events. *)
Definition no_request (evs : list event) : Prop :=
  Forall (fun ev => match ev with ERequest _ => False | _ => True end) evs.


(** What an operation makes of a transport fault: its failure value when
    [except Exception] catches the fault, the fault itself otherwise. *)
Definition fault_result {A} (failure : A) (e : exn) : result A :=
  if is_Exception e then Ok failure else Raise e.

(** The step from [w] to [w'] stayed local: no HTTP call, no sleep, no time
    passed; besides console output it did [acts]. *)
Definition local_step (acts : list event) (w w' : world) : Prop :=
  sent w' = sent w /\ slept w' = slept w /\ clock w' = clock w /\
  exists evs, trace w' = trace w ++ evs /\ actions evs = acts.

(** What [main] makes of the result of the wait it chains. *)
Definition discard {A} (r : result A) : result unit :=
  match r with
  | Ok _ => Ok tt
  | Raise e => Raise e
  | Unfinished => Unfinished
  end.


(** ** More sample worlds *)

Definition ConnectionError := mkExn "ConnectionError" true.

(** As [demo_world], with the given environment value of the username, no
    password in the environment, and the given typed lines. *)
Definition prompt_world (username : option pystr) (lines : list pystr)
    (net : nat -> exchange) : world :=
  mkWorld (env_of username None) lines net 0 (fun _ => 0) 0 0 (fun _ => None) 0 [].

(** Every call fails in transport. *)
Definition unreachable : nat -> exchange :=
  fun _ => mkExchange 0 (Fault ConnectionError).


(** * Proofs *)

(** ** The library models on known values *)

Example utf8_known_values :
  Utf8.encode [0x41; 0xE9; 0x20AC; 0x1F600]%N
    = Some [0x41; 0xC3; 0xA9; 0xE2; 0x82; 0xAC; 0xF0; 0x9F; 0x98; 0x80]%N /\
  Utf8.encode [0xD800]%N = None /\
  Utf8.decode [0xC0; 0x80]%N = None.
Proof. repeat split; reflexivity. Qed.

Example b64_rfc4648_vectors :
  Base64.b64encode [] = [] /\
  Base64.b64encode (lit "f") = lit "Zg==" /\
  Base64.b64encode (lit "fo") = lit "Zm8=" /\
  Base64.b64encode (lit "foo") = lit "Zm9v" /\
  Base64.b64encode (lit "foob") = lit "Zm9vYg==" /\
  Base64.b64encode (lit "fooba") = lit "Zm9vYmE=" /\
  Base64.b64encode (lit "foobar") = lit "Zm9vYmFy" /\
  Base64.b64decode (lit "Zm9vYmE=") = Some (lit "fooba").
Proof. repeat split; reflexivity. Qed.

Example strip_known_values :
  strip (lit "  dep-123 ") = lit "dep-123" /\
  strip ([0x0A; 0x09] ++ lit "a b" ++ [0x0D; 0x0A; 0xA0])%N = lit "a b" /\
  strip (lit "   ") = [].
Proof. repeat split; reflexivity. Qed.

Example auth_header_u_p :
  auth_header_value (lit "u") (lit "p") = Some (lit "Bearer dTpw").
Proof. reflexivity. Qed.

(** ** Octets and code points *)

Section Encodings.

Local Open Scope N_scope.

(** Bit operations as arithmetic. *)

Lemma land_shifted_low a b k : b < 2 ^ k -> N.land (a * 2 ^ k) b = 0.
Proof.
  intros Hb. apply N.bits_inj_0. intros n. rewrite N.land_spec.
  destruct (N.lt_ge_cases n k) as [Hn | Hn].
  - rewrite N.mul_pow2_bits_low by assumption. reflexivity.
  - destruct (N.eq_dec b 0) as [-> | Hb0].
    + rewrite N.bits_0. apply andb_false_r.
    + rewrite (N.bits_above_log2 b n).
      * apply andb_false_r.
      * apply N.log2_lt_pow2 in Hb; lia.
Qed.

Lemma lor_shifted_low a b k : b < 2 ^ k -> N.lor (a * 2 ^ k) b = a * 2 ^ k + b.
Proof.
  intros Hb. pose proof (land_shifted_low a b k Hb) as H.
  rewrite (N.add_nocarry_lxor _ _ H). symmetry. apply N.lxor_lor, H.
Qed.

Lemma lor_0x80 x : x < 64 -> N.lor 0x80 x = 128 + x.
Proof. intros H. apply (lor_shifted_low 2 x 6). exact H. Qed.
Lemma lor_0xC0 x : x < 64 -> N.lor 0xC0 x = 192 + x.
Proof. intros H. apply (lor_shifted_low 3 x 6). exact H. Qed.
Lemma lor_0xE0 x : x < 32 -> N.lor 0xE0 x = 224 + x.
Proof. intros H. apply (lor_shifted_low 7 x 5). exact H. Qed.
Lemma lor_0xF0 x : x < 16 -> N.lor 0xF0 x = 240 + x.
Proof. intros H. apply (lor_shifted_low 15 x 4). exact H. Qed.
Lemma land_0x3F x : N.land x 0x3F = x mod 64.
Proof. apply (N.land_ones x 6). Qed.
Lemma land_0x0F x : N.land x 0x0F = x mod 16.
Proof. apply (N.land_ones x 4). Qed.
Lemma land_0x03 x : N.land x 0x03 = x mod 4.
Proof. apply (N.land_ones x 2). Qed.
Lemma shiftr_div x k : N.shiftr x k = x / 2 ^ k.
Proof. apply N.shiftr_div_pow2. Qed.

Lemma Some_inj {A} (a b : A) : Some a = Some b -> a = b.
Proof. congruence. Qed.

Ltac bool_tests :=
  repeat match goal with
    | |- context [N.ltb ?a ?b] => destruct (N.ltb_spec a b); try lia
    | |- context [N.leb ?a ?b] => destruct (N.leb_spec a b); try lia
    | |- context [N.eqb ?a ?b] => destruct (N.eqb_spec a b); try lia
    end; cbn [andb orb negb].

Lemma decode_encode_char c bs rest :
  Utf8.encode_char c = Some bs ->
  Utf8.decode (bs ++ rest) = option_map (cons c) (Utf8.decode rest).
Proof.
  unfold Utf8.encode_char. intros H.
  destruct (N.ltb_spec c 0x80) as [H1 | H1].
  { apply Some_inj in H; subst bs. cbn [app Utf8.decode].
    destruct (N.ltb_spec c 0x80); [reflexivity | lia]. }
  destruct (N.ltb_spec c 0x800) as [H2 | H2].
  { apply Some_inj in H; subst bs.
    rewrite land_0x3F, shiftr_div. change (2 ^ 6) with 64.
    rewrite lor_0xC0, lor_0x80 by lia.
    cbn [app Utf8.decode]. unfold Utf8.is_cont.
    replace ((192 + c / 64 - 192) * 64 + (128 + c mod 64 - 128)) with c by lia.
    bool_tests. reflexivity. }
  destruct (N.ltb_spec c 0x10000) as [H3 | H3].
  { destruct ((0xD800 <=? c) && (c <=? 0xDFFF)) eqn:Hs; [discriminate |].
    apply Some_inj in H; subst bs.
    rewrite !land_0x3F, !shiftr_div. change (2 ^ 6) with 64. change (2 ^ 12) with 4096.
    rewrite lor_0xE0, !lor_0x80 by lia.
    cbn [app Utf8.decode]. unfold Utf8.is_cont.
    replace ((224 + c / 4096 - 224) * 4096 + (128 + c / 64 mod 64 - 128) * 64
             + (128 + c mod 64 - 128)) with c by lia.
    rewrite Hs.
    bool_tests. reflexivity. }
  destruct (N.ltb_spec c 0x110000) as [H4 | H4]; [| discriminate].
  apply Some_inj in H; subst bs.
  rewrite !land_0x3F, !shiftr_div.
  change (2 ^ 6) with 64. change (2 ^ 12) with 4096. change (2 ^ 18) with 262144.
  rewrite lor_0xF0, !lor_0x80 by lia.
  cbn [app Utf8.decode]. unfold Utf8.is_cont.
  replace ((240 + c / 262144 - 240) * 262144 + (128 + c / 4096 mod 64 - 128) * 4096
           + (128 + c / 64 mod 64 - 128) * 64 + (128 + c mod 64 - 128)) with c by lia.
  bool_tests. reflexivity.
Qed.

Lemma utf8_roundtrip s bs : Utf8.encode s = Some bs -> Utf8.decode bs = Some s.
Proof.
  revert bs. induction s as [| c s IH]; intros bs H.
  - apply Some_inj in H. subst bs. reflexivity.
  - cbn [Utf8.encode] in H.
    destruct (Utf8.encode_char c) as [b |] eqn:Hc; [| discriminate].
    destruct (Utf8.encode s) as [bs' |]; [| discriminate].
    apply Some_inj in H. subst bs.
    rewrite (decode_encode_char c b bs' Hc), (IH bs' eq_refl). reflexivity.
Qed.

Lemma encode_char_octets c bs : Utf8.encode_char c = Some bs -> octets bs.
Proof.
  unfold Utf8.encode_char, octets. intros H.
  destruct (N.ltb_spec c 0x80) as [H1 | H1].
  { apply Some_inj in H; subst bs. repeat constructor. lia. }
  destruct (N.ltb_spec c 0x800) as [H2 | H2].
  { apply Some_inj in H; subst bs.
    rewrite land_0x3F, shiftr_div. change (2 ^ 6) with 64.
    rewrite lor_0xC0, lor_0x80 by lia. repeat constructor; lia. }
  destruct (N.ltb_spec c 0x10000) as [H3 | H3].
  { destruct ((0xD800 <=? c) && (c <=? 0xDFFF)); [discriminate |].
    apply Some_inj in H; subst bs.
    rewrite !land_0x3F, !shiftr_div. change (2 ^ 6) with 64. change (2 ^ 12) with 4096.
    rewrite lor_0xE0, !lor_0x80 by lia. repeat constructor; lia. }
  destruct (N.ltb_spec c 0x110000) as [H4 | H4]; [| discriminate].
  apply Some_inj in H; subst bs.
  rewrite !land_0x3F, !shiftr_div.
  change (2 ^ 6) with 64. change (2 ^ 12) with 4096. change (2 ^ 18) with 262144.
  rewrite lor_0xF0, !lor_0x80 by lia. repeat constructor; lia.
Qed.

Lemma encode_octets s bs : Utf8.encode s = Some bs -> octets bs.
Proof.
  revert bs. induction s as [| c s IH]; intros bs H.
  - apply Some_inj in H. subst bs. constructor.
  - cbn [Utf8.encode] in H.
    destruct (Utf8.encode_char c) as [b |] eqn:Hc; [| discriminate].
    destruct (Utf8.encode s) as [bs' |]; [| discriminate].
    apply Some_inj in H. subst bs.
    apply Forall_app. split; [exact (encode_char_octets c b Hc) | exact (IH bs' eq_refl)].
Qed.

(** Base64. *)

Lemma index_char i : i < 64 -> Base64.index_of (Base64.char_of i) = Some i.
Proof.
  intros H. rewrite <- (N2Nat.id i) in *.
  assert (Hn : (N.to_nat i < 64)%nat) by lia.
  revert Hn. generalize (N.to_nat i). clear. intros n Hn.
  do 64 (destruct n as [| n]; [reflexivity |]). lia.
Qed.

Lemma char_not_pad i : i < 64 -> (Base64.char_of i =? Base64.pad) = false.
Proof.
  intros H. rewrite <- (N2Nat.id i) in *.
  assert (Hn : (N.to_nat i < 64)%nat) by lia.
  revert Hn. generalize (N.to_nat i). clear. intros n Hn.
  do 64 (destruct n as [| n]; [reflexivity |]). lia.
Qed.

Lemma list_ind3 {A} (P : list A -> Prop) :
  P [] -> (forall a, P [a]) -> (forall a b, P [a; b]) ->
  (forall a b c l, P l -> P (a :: b :: c :: l)) ->
  forall l, P l.
Proof.
  intros H0 H1 H2 H3.
  refine (fix go l := match l with
                      | [] => H0
                      | [a] => H1 a
                      | [a; b] => H2 a b
                      | a :: b :: c :: l' => H3 a b c l' (go l')
                      end).
Qed.

Lemma b64encode_nonempty a bs : Base64.b64encode (a :: bs) <> [].
Proof. destruct bs as [| b [| c bs]]; discriminate. Qed.

Lemma lor_mul16 x y : y < 16 -> N.lor (x * 16) y = x * 16 + y.
Proof. intros H. apply (lor_shifted_low x y 4). exact H. Qed.
Lemma lor_mul4 x y : y < 4 -> N.lor (x * 4) y = x * 4 + y.
Proof. intros H. apply (lor_shifted_low x y 2). exact H. Qed.

Lemma b64decode_group c0 c1 c2 c3 t tl :
  Base64.b64decode (c0 :: c1 :: c2 :: c3 :: t :: tl) =
  match Base64.index_of c0, Base64.index_of c1, Base64.index_of c2,
        Base64.index_of c3, Base64.b64decode (t :: tl) with
  | Some s0, Some s1, Some s2, Some s3, Some bs =>
      Some ((s0 * 4 + s1 / 16) :: ((s1 mod 16) * 16 + s2 / 4)
            :: ((s2 mod 4) * 64 + s3) :: bs)
  | _, _, _, _, _ => None
  end.
Proof. reflexivity. Qed.

Ltac b64_arith :=
  rewrite ?land_0x3F, ?land_0x0F, ?land_0x03, ?shiftr_div, ?N.shiftl_mul_pow2;
  change (2 ^ 2) with 4; change (2 ^ 4) with 16; change (2 ^ 6) with 64.

Lemma b64_roundtrip bs : octets bs -> Base64.b64decode (Base64.b64encode bs) = Some bs.
Proof.
  induction bs as [| a | a b | a b c l IH] using list_ind3; intros Hb.
  - reflexivity.
  - inversion_clear Hb as [| ? ? Ha _].
    cbn [Base64.b64encode Base64.b64decode]. unfold Base64.decode_last. b64_arith.
    rewrite !index_char by lia. cbn. f_equal. f_equal. lia.
  - inversion_clear Hb as [| ? ? Ha Hb']. inversion_clear Hb' as [| ? ? Hb _].
    cbn [Base64.b64encode Base64.b64decode]. unfold Base64.decode_last. b64_arith.
    rewrite lor_mul16 by lia.
    rewrite !index_char by lia.
    rewrite (char_not_pad (b mod 16 * 4)) by lia. cbn [andb].
    rewrite N.eqb_refl. f_equal. f_equal; [lia |]. f_equal. lia.
  - inversion_clear Hb as [| ? ? Ha Hb']. inversion_clear Hb' as [| ? ? Hb Hc'].
    inversion_clear Hc' as [| ? ? Hc Hl].
    specialize (IH Hl).
    cbn [Base64.b64encode]. b64_arith.
    rewrite lor_mul16, lor_mul4 by lia.
    destruct l as [| x l].
    + cbn [Base64.b64encode Base64.b64decode]. unfold Base64.decode_last.
      rewrite !index_char by lia.
      rewrite (char_not_pad (b mod 16 * 4 + c / 64)) by lia.
      rewrite (char_not_pad (c mod 64)) by lia. cbn [andb].
      f_equal. f_equal; [lia |]. f_equal; [lia |]. f_equal. lia.
    + remember (Base64.b64encode (x :: l)) as tl eqn:Htl.
      destruct tl as [| t tl]; [symmetry in Htl; apply b64encode_nonempty in Htl; contradiction |].
      rewrite b64decode_group, IH.
      rewrite !index_char by lia.
      f_equal. f_equal; [lia |]. f_equal; [lia |]. f_equal. lia.
Qed.


End Encodings.

(** ** Running the monad *)

Ltac run :=
  cbv beta iota zeta delta
    [bind ret raise emit print os_environ_get getpass input time_time close
     response_json as_dict try_except try_finally];
  cbn [environ stdin net sent oversleep slept clock fs opened trace fst snd].

Ltac trace_shape := rewrite <- ?app_assoc; cbn [app].

Lemma bind_ok {A B} (m : M A) (k : A -> M B) w a w' :
  m w = (Ok a, w') -> (x <- m ;; k x) w = k a w'.
Proof. unfold bind. intros ->. reflexivity. Qed.

Lemma bind_run {A B} (m : M A) (k : A -> M B) w r w' :
  m w = (r, w') ->
  (x <- m ;; k x) w =
  match r with
  | Ok a => k a w'
  | Raise e => (Raise e, w')
  | Unfinished => (Unfinished, w')
  end.
Proof. unfold bind. intros ->. reflexivity. Qed.

Lemma try_except_bind {A B} (m : M A) (k : A -> M B) (h : exn -> M B) w :
  try_except (x <- m ;; k x) h w =
  match m w with
  | (Ok a, w') => try_except (k a) h w'
  | (Raise e, w') => if is_Exception e then h e w' else (Raise e, w')
  | (Unfinished, w') => (Unfinished, w')
  end.
Proof.
  unfold try_except, bind. destruct (m w) as [[a | e |] w']; reflexivity.
Qed.

(** ** Resolving the credentials *)

Lemma get_auth_header_spec w :
  exists r stdin' evs,
    get_auth_header w =
      (r, mkWorld (environ w) stdin' (net w) (sent w) (oversleep w) (slept w)
                  (clock w) (fs w) (opened w) (trace w ++ evs))
    /\ Forall console evs /\ catchable r.
Proof.
  unfold get_auth_header. run.
  destruct (environ w (lit "SONATYPE_USERNAME")) as [[| c u] |] eqn:Hu;
  destruct (environ w (lit "SONATYPE_PASSWORD")) as [[| d p] |] eqn:Hp;
  run.
  all: try (destruct (stdin w) as [| l1 [| l2 rest]]; run).
  all: try (match goal with
            | |- context [auth_header_value ?a ?b] => destruct (auth_header_value a b)
            end).
  all: trace_shape.
  all: try (do 3 eexists; split; [reflexivity |]; split; [repeat constructor | exact I || reflexivity]).
  all: eexists; exists (stdin w), []; rewrite app_nil_r; destruct w;
    (split; [reflexivity |]); split; [constructor | exact I || reflexivity].
Qed.

Lemma get_auth_header_env w u p v :
  env_credentials w = Some (u, p) ->
  auth_header_value u p = Some v ->
  get_auth_header w = (Ok [(lit "Authorization", v)], w).
Proof.
  unfold env_credentials, get_auth_header. run.
  destruct (environ w (lit "SONATYPE_USERNAME")) as [[| c u'] |]; try discriminate.
  destruct (environ w (lit "SONATYPE_PASSWORD")) as [[| d p'] |]; try discriminate.
  intros [= <- <-] Hv. run. rewrite Hv. reflexivity.
Qed.

Lemma get_auth_header_resolved w u p v :
  resolved_credentials w = Some (u, p) ->
  auth_header_value u p = Some v ->
  get_auth_header w =
    (Ok [(lit "Authorization", v)],
     mkWorld (environ w) (auth_stdin w) (net w) (sent w) (oversleep w) (slept w)
             (clock w) (fs w) (opened w) (trace w ++ auth_events w)).
Proof.
  unfold resolved_credentials, auth_stdin, auth_events. intros Hr Hv.
  destruct (env_credentials w) as [[u' p'] |] eqn:He.
  - injection Hr as -> ->. rewrite (get_auth_header_env w u p v He Hv).
    rewrite app_nil_r. destruct w. reflexivity.
  - destruct (stdin w) as [| u' [| p' rest]] eqn:Hs; try discriminate.
    injection Hr as -> ->.
    unfold env_credentials in He. unfold get_auth_header. run.
    destruct (environ w (lit "SONATYPE_USERNAME")) as [[| c u'] |];
      destruct (environ w (lit "SONATYPE_PASSWORD")) as [[| d p'] |];
      try discriminate; run; rewrite Hs; run; rewrite Hv; run; trace_shape; reflexivity.
Qed.

(** ** Printing loops *)

Lemma for_list_print {A} (f : A -> list fragment) items w :
  for_list items (fun x => print (f x)) w =
    (Ok tt,
     mkWorld (environ w) (stdin w) (net w) (sent w) (oversleep w) (slept w)
             (clock w) (fs w) (opened w)
             (trace w ++ List.map (fun x => EPrint (f x)) items)).
Proof.
  revert w. induction items as [| x items IH]; intros w.
  - cbn [for_list List.map]. rewrite app_nil_r. destruct w. reflexivity.
  - cbn [for_list List.map]. run. rewrite IH. run. trace_shape. reflexivity.
Qed.

Lemma Forall_console_prints {A} (f : A -> list fragment) items :
  Forall console (List.map (fun x => EPrint (f x)) items).
Proof. induction items; constructor; [exact I | assumption]. Qed.

(** ** One status check *)

Lemma check_deployment_status_unfold id w :
  check_deployment_status id w =
  (print [FLit "Checking status for deployment: "; FStr id] ;;
   fun w1 =>
     match get_auth_header w1 with
     | (Ok headers, w2) => status_exchange id headers w2
     | (Raise e, w2) =>
         if is_Exception e
         then (print [FLit "Error checking status: "; FExn e] ;; ret None) w2
         else (Raise e, w2)
     | (Unfinished, w2) => (Unfinished, w2)
     end) w.
Proof.
  unfold check_deployment_status, status_exchange, status_request.
  rewrite !(bind_ok (print _) _ w tt _ eq_refl).
  apply try_except_bind.
Qed.

Ltac run_http := unfold http; run.

Lemma for_list_print_raw {A} (f : A -> list fragment) items w :
  for_list items
    (fun x w1 =>
       (Ok tt,
        mkWorld (environ w1) (stdin w1) (net w1) (sent w1) (oversleep w1)
                (slept w1) (clock w1) (fs w1) (opened w1)
                (trace w1 ++ [EPrint (f x)]))) w =
    (Ok tt,
     mkWorld (environ w) (stdin w) (net w) (sent w) (oversleep w) (slept w)
             (clock w) (fs w) (opened w)
             (trace w ++ List.map (fun x => EPrint (f x)) items)).
Proof. exact (for_list_print f items w). Qed.

Ltac listing_cases :=
  match goal with
  | |- context [if dict_mem ?k ?d && truthy ?v then _ else _] =>
      let H := fresh "Hlist" in
      destruct (dict_mem k d && truthy v) eqn:H; run;
      [ unfold for_each;
        let Hi := fresh "Hiter" in
        destruct (json_iter v) as [? |] eqn:Hi; run;
        [ rewrite (for_list_print_raw (fun x => [FLit "  - "; FJson x])); run | ]
      | ]
  end.

Lemma status_exchange_spec id hdrs w :
  exists post,
    status_exchange id hdrs w =
      (check_result (outcome (net w (sent w))),
       mkWorld (environ w) (stdin w) (net w) (S (sent w)) (oversleep w) (slept w)
               (clock w + latency (net w (sent w))) (fs w) (opened w)
               (trace w ++ ERequest (status_request id hdrs) :: post))
    /\ Forall console post.
Proof.
  unfold status_exchange. run_http.
  destruct (outcome (net w (sent w))) as [e | resp]; cbn [check_result].
  { destruct (is_Exception e); run; trace_shape; eexists; split;
      try reflexivity; repeat constructor. }
  unfold status_of.
  destruct (status_code resp =? 200); run.
  2: { trace_shape; eexists; split; [reflexivity | repeat constructor]. }
  destruct (json_body resp) as [[| b | n | s | l | d] |]; run; trace_shape.
  1-5, 7: eexists; split; [reflexivity | repeat constructor].
  unfold listing_ok, iterable.
  listing_cases; repeat listing_cases.
  all: cbn [negb orb andb]; trace_shape.
  all: eexists; (split; [reflexivity |]).
  all: repeat first [ apply Forall_cons; [exact I |]
                    | apply Forall_app; split
                    | apply Forall_console_prints
                    | apply Forall_nil ].
Qed.

Lemma console_polling id evs : Forall console evs -> Forall (polling id) evs.
Proof.
  apply Forall_impl. intros [l | p | r | d | p h | h]; cbn; intros H; try contradiction; exact I.
Qed.

Lemma check_deployment_status_spec id w :
  exists r w' evs,
    check_deployment_status id w = (r, w') /\
    frame w w' /\ slept w' = slept w /\
    trace w' = trace w ++ evs /\ Forall (polling id) evs /\
    ((sent w' = sent w /\ clock w' = clock w /\ r = Ok None) \/
     (sent w' = S (sent w) /\ clock w' = clock w + latency (net w (sent w)) /\
      r = check_result (outcome (net w (sent w))))).
Proof.
  rewrite check_deployment_status_unfold. run.
  match goal with |- context [get_auth_header ?w1] =>
    destruct (get_auth_header_spec w1) as (ra & stdin' & evs & -> & Hevs & Hra) end.
  cbn [environ stdin net sent oversleep slept clock fs opened trace] in *.
  destruct ra as [headers | e |]; [| | contradiction].
  - match goal with |- context [status_exchange id headers ?w2] =>
      destruct (status_exchange_spec id headers w2) as (post & -> & Hpost) end.
    cbn [environ stdin net sent oversleep slept clock fs opened trace].
    do 3 eexists. split; [reflexivity |].
    cbn [environ stdin net sent oversleep slept clock fs opened trace].
    split; [repeat split |]. split; [reflexivity |].
    split; [trace_shape; reflexivity |].
    split; [| right; repeat split].
    constructor; [exact I |]. apply Forall_app. split.
    + apply console_polling, Hevs.
    + constructor; [eexists; reflexivity | apply console_polling, Hpost].
  - cbn in Hra. rewrite Hra. run.
    do 3 eexists. split; [reflexivity |].
    cbn [environ stdin net sent oversleep slept clock fs opened trace].
    split; [repeat split |]. split; [reflexivity |].
    split; [trace_shape; reflexivity |].
    split; [| left; repeat split].
    constructor; [exact I |]. apply Forall_app. split.
    + apply console_polling, Hevs.
    + repeat constructor.
Qed.

Lemma actions_console evs : Forall console evs -> actions evs = [].
Proof.
  induction 1 as [| ev evs Hev _ IH]; [reflexivity |].
  destruct ev; try contradiction; exact IH.
Qed.

Lemma actions_app a b : actions (a ++ b) = actions a ++ actions b.
Proof. apply filter_app. Qed.



(** ** One turn of the polling loop *)

Lemma wait_body_unfold id target interval :
  wait_body id target interval =
  (status <- check_deployment_status id ;; after_check target interval status).
Proof. reflexivity. Qed.

(** Classes of events. *)

Lemma polling_waiting id interval evs :
  Forall (polling id) evs -> Forall (waiting id interval) evs.
Proof.
  apply Forall_impl. intros [l | p | r | d | p h | h]; cbn; intros H;
    try contradiction; assumption.
Qed.

Lemma console_waiting id interval evs :
  Forall console evs -> Forall (waiting id interval) evs.
Proof. intros H. apply polling_waiting, console_polling, H. Qed.

Create HintDb events.
#[local] Hint Resolve console_polling polling_waiting console_waiting
  Forall_console_prints : events.

Lemma frame_refl w : frame w w.
Proof. repeat split. Qed.

Lemma frame_trans w1 w2 w3 : frame w1 w2 -> frame w2 w3 -> frame w1 w3.
Proof.
  unfold frame. intros (A1 & A2 & A3 & A4 & A5) (B1 & B2 & B3 & B4 & B5).
  repeat split; congruence.
Qed.

Ltac frame_ok := unfold frame, said_world, slept_world; cbn; repeat split.

Lemma falsy_or_dict (status : option dict) :
  falsy status = true \/ exists d : dict, status = Some d /\ d <> [].
Proof.
  destruct status as [[| kv d] |]; [left | right | left]; try reflexivity.
  exists (kv :: d). split; [reflexivity | discriminate].
Qed.

Section Turn.

Variables (target : pystr) (interval : Z).

Ltac run_sleep :=
  unfold time_sleep;
  match goal with
  | |- context [?d <? 0] => destruct (Z.ltb_spec d 0); [try lia | run]
  end.

Lemma after_check_retry status w :
  falsy status = true -> 0 <= interval ->
  after_check target interval status w =
    (Ok Continue,
     slept_world interval
       [EPrint [FLit "Failed to check status, retrying..."]; ESleep interval] w).
Proof.
  intros Hf Hi. unfold after_check, slept_world.
  destruct status as [[| kv d] |]; try discriminate;
    run; run_sleep; trace_shape; reflexivity.
Qed.

Lemma after_check_pending (d : dict) w :
  d <> [] -> state_is d target = false -> state_is d (lit "FAILED") = false ->
  0 <= interval ->
  after_check target interval (Some d) w =
    (Ok Continue,
     slept_world interval
       [EPrint [FLit "Current state: "; FJson (get_default k_state JNull d);
                FLit ", waiting "; FTicks interval; FLit " seconds..."];
        ESleep interval] w).
Proof.
  unfold state_is. intros Hd Ht Hf Hi. unfold after_check, slept_world.
  destruct d as [| kv d]; [contradiction |].
  cbv zeta. rewrite Ht, Hf. run; run_sleep; trace_shape; reflexivity.
Qed.

Lemma after_check_reached (d : dict) w :
  d <> [] -> state_is d target = true ->
  after_check target interval (Some d) w =
    (Ok (Return (Some d)),
     said_world [EPrint [FLit "Deployment reached "; FStr target; FLit " state!"]] w).
Proof.
  unfold state_is. intros Hd Ht. unfold after_check, said_world.
  destruct d as [| kv d]; [contradiction |].
  cbv zeta. rewrite Ht. reflexivity.
Qed.

Lemma after_check_failed (d : dict) w :
  d <> [] -> state_is d target = false -> state_is d (lit "FAILED") = true ->
  exists evs,
    after_check target interval (Some d) w =
      (if errors_listable d then Ok (Return (Some d)) else Raise TypeError,
       said_world evs w)
    /\ Forall console evs.
Proof.
  unfold state_is, errors_listable, iterable. intros Hd Ht Hf.
  unfold after_check, said_world.
  destruct d as [| kv d]; [contradiction |].
  cbv zeta. rewrite Ht, Hf. run.
  destruct (dict_mem k_errors (kv :: d)); run.
  - unfold for_each.
    destruct (json_iter (get_default k_errors (JArr []) (kv :: d))) as [items |]; run.
    + rewrite (for_list_print_raw (fun x => [FLit "  - "; FJson x])); run.
      trace_shape. eexists. split; [reflexivity |].
      do 2 (constructor; [exact I |]). apply Forall_console_prints.
    + trace_shape. eexists. split; [reflexivity |]. repeat constructor.
  - eexists. split; [reflexivity |]. repeat constructor.
Qed.

Lemma after_check_bad_interval status w :
  interval < 0 ->
  (falsy status = true \/
   exists d : dict, status = Some d /\ state_is d target = false /\
             state_is d (lit "FAILED") = false) ->
  exists evs,
    after_check target interval status w = (Raise ValueError, said_world evs w)
    /\ Forall console evs.
Proof.
  intros Hi Hs. unfold after_check, said_world, state_is in *.
  destruct status as [[| kv d] |].
  - run. unfold time_sleep. destruct (Z.ltb_spec interval 0); [| lia]. run.
    eexists. split; [reflexivity |]. repeat constructor.
  - destruct Hs as [Hs | (d' & [= <-] & Ht & Hf)]; [discriminate |].
    cbv zeta. rewrite Ht, Hf. run.
    unfold time_sleep. destruct (Z.ltb_spec interval 0); [| lia]. run.
    eexists. split; [reflexivity |]. repeat constructor.
  - run. unfold time_sleep. destruct (Z.ltb_spec interval 0); [| lia]. run.
    eexists. split; [reflexivity |]. repeat constructor.
Qed.

(** Every way one turn can end. *)
Lemma after_check_spec status w :
  exists r w' evs,
    after_check target interval status w = (r, w') /\
    frame w w' /\ sent w' = sent w /\ trace w' = trace w ++ evs /\
    (forall id, Forall (waiting id interval) evs) /\
    match r with
    | Ok Continue =>
        0 <= interval /\ slept w' = S (slept w) /\
        clock w' = clock w + interval + oversleep w (slept w)
    | Ok (Return st) =>
        clock w' = clock w /\ slept w' = slept w /\
        exists d : dict, st = Some d /\ status = Some d /\ d <> []
    | Raise e => clock w' = clock w /\ slept w' = slept w
    | Unfinished => False
    end.
Proof.
  destruct (falsy_or_dict status) as [Hf | (d & -> & Hd)].
  - destruct (Z.lt_ge_cases interval 0) as [Hi | Hi].
    + destruct (after_check_bad_interval status w Hi (or_introl Hf))
        as (evs & -> & Hevs).
      do 3 eexists. split; [reflexivity |]. split; [frame_ok |].
      repeat split. intros id. apply console_waiting, Hevs.
    + rewrite (after_check_retry status w Hf Hi).
      do 3 eexists. split; [reflexivity |]. split; [frame_ok |].
      repeat split; try assumption. intros id. repeat constructor.
  - destruct (state_is d target) eqn:Ht.
    { rewrite (after_check_reached d w Hd Ht).
      do 3 eexists. split; [reflexivity |]. split; [frame_ok |].
      repeat split. { intros id. repeat constructor. }
      eexists. repeat split. assumption. }
    destruct (state_is d (lit "FAILED")) eqn:Hfl.
    { destruct (after_check_failed d w Hd Ht Hfl) as (evs & -> & Hevs).
      do 3 eexists. split; [reflexivity |]. split; [frame_ok |].
      repeat split. { intros id. apply console_waiting, Hevs. }
      destruct (errors_listable d); repeat split.
      eexists. repeat split. assumption. }
    destruct (Z.lt_ge_cases interval 0) as [Hi | Hi].
    + destruct (after_check_bad_interval (Some d) w Hi) as (evs & -> & Hevs).
      { right. eexists. repeat split; assumption. }
      do 3 eexists. split; [reflexivity |]. split; [frame_ok |].
      repeat split. intros id. apply console_waiting, Hevs.
    + rewrite (after_check_pending d w Hd Ht Hfl Hi).
      do 3 eexists. split; [reflexivity |]. split; [frame_ok |].
      repeat split; try assumption. intros id. repeat constructor.
Qed.

End Turn.

(** ** Events of a whole wait *)

Lemma wait_body_spec id target interval w :
  exists r w' evs,
    wait_body id target interval w = (r, w') /\
    frame w w' /\ trace w' = trace w ++ evs /\
    Forall (waiting id interval) evs /\
    match r with
    | Ok Continue => 0 <= interval
    | Ok (Return st) => exists d : dict, st = Some d /\ d <> []
    | Raise e => True
    | Unfinished => False
    end.
Proof.
  rewrite wait_body_unfold.
  destruct (check_deployment_status_spec id w)
    as (rc & w1 & evs1 & Hc & Hfr1 & _ & Htr1 & Hev1 & Hcase).
  rewrite (bind_run _ _ _ _ _ Hc).
  assert (Hrc : rc <> Unfinished).
  { destruct Hcase as [(_ & _ & ->) | (_ & _ & ->)]; [discriminate |].
    destruct (outcome _) as [e | resp]; cbn; [destruct (is_Exception e) |]; discriminate. }
  destruct rc as [status | e |]; [| | contradiction].
  - destruct (after_check_spec target interval status w1)
      as (r & w' & evs2 & -> & Hfr2 & _ & Htr2 & Hev2 & Hr).
    exists r, w', (evs1 ++ evs2). split; [reflexivity |].
    split; [eapply frame_trans; eassumption |].
    split; [rewrite Htr2, Htr1, app_assoc; reflexivity |].
    split; [apply Forall_app; split; auto with events |].
    destruct r as [[| st] | e |]; try exact I; try contradiction.
    + apply Hr.
    + destruct Hr as (_ & _ & d & -> & _ & Hd). eexists. split; [reflexivity | exact Hd].
  - exists (Raise e), w1, evs1. split; [reflexivity |].
    split; [assumption |]. split; [assumption |].
    split; [auto with events | exact I].
Qed.

Lemma wait_loop_unfold fuel id target interval timeout start w :
  wait_loop (S fuel) id target interval timeout start w =
  if clock w - start <? timeout then
    (step <- wait_body id target interval ;;
     match step with
     | Return status => ret status
     | Continue => wait_loop fuel id target interval timeout start
     end) w
  else
    (Ok None,
     said_world
       [EPrint [FLit "Timeout reached. Deployment did not reach "; FStr target;
                FLit " state within "; FTicks timeout; FLit " seconds."]] w).
Proof.
  cbn [wait_loop]. unfold bind at 1, time_time.
  destruct (clock w - start <? timeout); reflexivity.
Qed.

Lemma wait_loop_spec fuel id target interval timeout start :
  forall w, exists r w' evs,
    wait_loop fuel id target interval timeout start w = (r, w') /\
    frame w w' /\ trace w' = trace w ++ evs /\
    Forall (waiting id interval) evs /\
    (r = Ok None -> timeout <= clock w' - start).
Proof.
  induction fuel as [| fuel IH]; intros w.
  - exists Unfinished, w, []. cbn. rewrite app_nil_r.
    repeat split; [constructor | discriminate].
  - rewrite wait_loop_unfold.
    destruct (Z.ltb_spec (clock w - start) timeout) as [Hlt | Hge].
    + destruct (wait_body_spec id target interval w)
        as (r & w1 & evs1 & Hb & Hfr1 & Htr1 & Hev1 & Hr).
      rewrite (bind_run _ _ _ _ _ Hb).
      destruct r as [[| st] | e |]; [| | | contradiction].
      * destruct (IH w1) as (r2 & w2 & evs2 & -> & Hfr2 & Htr2 & Hev2 & Hto).
        exists r2, w2, (evs1 ++ evs2). split; [reflexivity |].
        split; [eapply frame_trans; eassumption |].
        split; [rewrite Htr2, Htr1, app_assoc; reflexivity |].
        split; [apply Forall_app; split; assumption | exact Hto].
      * exists (Ok st), w1, evs1. repeat split; try assumption; try apply Hfr1.
        destruct Hr as (d & -> & _). discriminate.
      * exists (Raise e), w1, evs1. repeat split; try assumption; try apply Hfr1.
        discriminate.
    + do 3 eexists. split; [reflexivity |]. unfold said_world.
      cbn [environ stdin net sent oversleep slept clock fs opened trace].
      split; [frame_ok |]. split; [reflexivity |].
      split; [repeat constructor | intros _; exact Hge].
Qed.


Lemma wait_body_quiet id target interval w :
  0 <= interval ->
  0 <= latency (net w (sent w)) -> 0 <= oversleep w (slept w) ->
  quiet target (outcome (net w (sent w))) = true ->
  exists w',
    wait_body id target interval w = (Ok Continue, w') /\
    net w' = net w /\ oversleep w' = oversleep w /\
    clock w + interval <= clock w'.
Proof.
  intros Hi Hlat Hov Hq. rewrite wait_body_unfold.
  destruct (check_deployment_status_spec id w)
    as (rc & w1 & evs1 & Hc & (_ & Hn & Ho & _) & Hsl & _ & _ & Hcase).
  rewrite (bind_run _ _ _ _ _ Hc).
  assert (Hrc : exists st, rc = Ok st /\
                  (falsy st = true \/
                   exists d : dict, st = Some d /\ d <> [] /\ state_is d target = false
                                    /\ state_is d (lit "FAILED") = false)).
  { destruct Hcase as [(_ & _ & ->) | (_ & _ & ->)].
    - exists None. split; [reflexivity | left; reflexivity].
    - unfold quiet in Hq. destruct (check_result _) as [st | e |]; try discriminate.
      exists st. split; [reflexivity |].
      destruct (falsy_or_dict st) as [Hf | (d & -> & Hd)]; [left; exact Hf | right].
      exists d. apply andb_true_iff in Hq. destruct Hq as [H1 H2].
      apply negb_true_iff in H1, H2. repeat split; assumption. }
  assert (Hclock : clock w <= clock w1).
  { destruct Hcase as [(_ & -> & _) | (_ & -> & _)]; lia. }
  destruct Hrc as (st & -> & [Hf | (d & -> & Hd & Ht & Hfl)]).
  - rewrite (after_check_retry target interval st w1 Hf Hi).
    eexists. split; [reflexivity |]. unfold slept_world. cbn.
    repeat split; try assumption. rewrite Ho, Hsl. lia.
  - rewrite (after_check_pending target interval d w1 Hd Ht Hfl Hi).
    eexists. split; [reflexivity |]. unfold slept_world. cbn.
    repeat split; try assumption. rewrite Ho, Hsl. lia.
Qed.

Lemma wait_loop_times_out id target interval timeout start w0 :
  0 < interval ->
  (forall n, 0 <= latency (net w0 n)) ->
  (forall n, 0 <= oversleep w0 n) ->
  (forall n, quiet target (outcome (net w0 n)) = true) ->
  forall fuel w,
    net w = net w0 -> oversleep w = oversleep w0 ->
    (Z.to_nat (timeout - (clock w - start)) < fuel)%nat ->
    exists w', wait_loop fuel id target interval timeout start w = (Ok None, w').
Proof.
  intros Hi Hlat Hov Hq. induction fuel as [| fuel IH]; intros w Hn Ho Hfuel; [lia |].
  rewrite wait_loop_unfold.
  destruct (Z.ltb_spec (clock w - start) timeout) as [Hlt | Hge].
  - destruct (wait_body_quiet id target interval w) as (w1 & Hb & Hn1 & Ho1 & Hc1).
    + lia.
    + rewrite Hn. apply Hlat.
    + rewrite Ho. apply Hov.
    + rewrite Hn. apply Hq.
    + rewrite (bind_run _ _ _ _ _ Hb). apply IH; [congruence | congruence | lia].
  - eexists. reflexivity.
Qed.

Lemma wait_body_progress id target interval w :
  0 <= latency (net w (sent w)) -> 0 <= oversleep w (slept w) ->
  exists r w',
    wait_body id target interval w = (r, w') /\
    net w' = net w /\ oversleep w' = oversleep w /\
    (sent w <= sent w' <= S (sent w))%nat /\
    match r with
    | Ok Continue => clock w + interval <= clock w'
    | _ => True
    end.
Proof.
  intros Hlat Hov. rewrite wait_body_unfold.
  destruct (check_deployment_status_spec id w)
    as (rc & w1 & evs1 & Hc & (_ & Hn & Ho & _) & Hsl & _ & _ & Hcase).
  rewrite (bind_run _ _ _ _ _ Hc).
  assert (Hs : (sent w <= sent w1 <= S (sent w))%nat /\ clock w <= clock w1).
  { destruct Hcase as [(-> & -> & _) | (-> & -> & _)]; lia. }
  destruct rc as [status | e |].
  - destruct (after_check_spec target interval status w1)
      as (r & w' & evs2 & -> & (_ & Hn2 & Ho2 & _) & Hs2 & _ & _ & Hr).
    exists r, w'. split; [reflexivity |].
    split; [congruence |]. split; [congruence |]. split; [lia |].
    destruct r as [[| st] | e |]; try exact I.
    destruct Hr as (_ & _ & ->). rewrite Ho, Hsl. lia.
  - exists (Raise e), w1. repeat split; try assumption; lia.
  - exists Unfinished, w1. repeat split; try assumption; lia.
Qed.

(** ** Failed checks followed by the target state *)


Lemma state_is_nonempty (d : dict) s : state_is d s = true -> d <> [].
Proof. intros H ->. discriminate. Qed.


Lemma pystr_eqb_eq a b : pystr_eqb a b = true <-> a = b.
Proof.
  revert b. induction a as [| x a IH]; intros [| y b]; cbn; split; intros H;
    try reflexivity; try discriminate.
  - apply andb_true_iff in H. destruct H as [H1 H2].
    apply N.eqb_eq in H1. apply IH in H2. congruence.
  - injection H as -> ->. rewrite N.eqb_refl. apply IH. reflexivity.
Qed.

Lemma state_is_str (d : dict) s x :
  dict_get k_state d = Some (JStr s) -> state_is d x = pystr_eqb s x.
Proof. unfold state_is, get_default. intros ->. reflexivity. Qed.

Lemma wait_for_deployment_unfold fuel id target interval timeout w :
  wait_for_deployment fuel id target interval timeout w =
  wait_loop fuel id target interval timeout (clock w)
    (said_world [EPrint [FLit "Waiting for deployment to reach "; FStr target;
                         FLit " state..."]] w).
Proof. reflexivity. Qed.

(** ** The turns of a wait *)

Lemma at_turn_frame id target interval w n :
  frame w (at_turn n id target interval w) /\
  exists evs,
    trace (at_turn n id target interval w) = trace w ++ evs /\
    Forall (waiting id interval) evs.
Proof.
  induction n as [| n [Hfr (evs & Htr & Hev)]].
  - split; [frame_ok |]. eexists. split; [reflexivity | repeat constructor].
  - cbn [at_turn].
    destruct (wait_body_spec id target interval (at_turn n id target interval w))
      as (r & w' & evs1 & Hb & Hfr1 & Htr1 & Hev1 & _).
    rewrite Hb. cbn [snd]. split; [eapply frame_trans; eassumption |].
    exists (evs ++ evs1). split; [rewrite Htr1, Htr, app_assoc; reflexivity |].
    apply Forall_app. split; assumption.
Qed.

(** The loop follows the turns as long as each begins within the budget and
    goes round again. *)
Lemma wait_loop_turns id target interval timeout w :
  forall n,
    (forall i, (i < n)%nat ->
       clock (at_turn i id target interval w) - clock w < timeout /\
       fst (wait_body id target interval (at_turn i id target interval w)) = Ok Continue) ->
    forall fuel,
      wait_for_deployment (n + fuel) id target interval timeout w =
      wait_loop fuel id target interval timeout (clock w) (at_turn n id target interval w).
Proof.
  induction n as [| n IH]; intros H fuel.
  - apply wait_for_deployment_unfold.
  - replace (S n + fuel)%nat with (n + S fuel)%nat by lia.
    rewrite IH by (intros i Hi; apply H; lia).
    destruct (H n ltac:(lia)) as [Hlt Hc].
    rewrite wait_loop_unfold.
    destruct (Z.ltb_spec (clock (at_turn n id target interval w) - clock w) timeout)
      as [_ | Hge]; [| lia].
    assert (Hb : wait_body id target interval (at_turn n id target interval w)
                 = (Ok Continue, at_turn (S n) id target interval w)).
    { cbn [at_turn]. rewrite <- Hc. apply surjective_pairing. }
    rewrite (bind_run _ _ _ _ _ Hb). reflexivity.
Qed.

(** Time and requests over turns that go round again. *)
Lemma at_turn_clock id target interval w :
  0 <= interval ->
  (forall n, 0 <= latency (net w n)) ->
  (forall n, 0 <= oversleep w n) ->
  forall n,
    (forall i, (i < n)%nat ->
       fst (wait_body id target interval (at_turn i id target interval w)) = Ok Continue) ->
    clock w + Z.of_nat n * interval <= clock (at_turn n id target interval w) /\
    (sent (at_turn n id target interval w) <= sent w + n)%nat /\
    forall i, (i <= n)%nat ->
      clock (at_turn i id target interval w) <= clock (at_turn n id target interval w).
Proof.
  intros Hi Hlat Hov. induction n as [| n IH]; intros H.
  - cbn. repeat split; try lia. intros i Hle. replace i with 0%nat by lia. cbn. lia.
  - destruct IH as (Hc & Hs & Hm); [intros i Hlt; apply H; lia |].
    destruct (at_turn_frame id target interval w n) as [(_ & Hn & Ho & _) _].
    destruct (wait_body_progress id target interval (at_turn n id target interval w))
      as (r & w' & Hb & _ & _ & Hsent & Hr).
    { rewrite Hn. apply Hlat. }
    { rewrite Ho. apply Hov. }
    pose proof (H n ltac:(lia)) as Hcont. rewrite Hb in Hcont. cbn in Hcont. subst r.
    cbn [at_turn]. rewrite Hb. cbn [snd].
    split; [lia |]. split; [lia |].
    intros i Hle. destruct (Nat.eq_dec i (S n)) as [-> | Hne].
    + cbn [at_turn]. rewrite Hb. cbn [snd]. lia.
    + specialize (Hm i ltac:(lia)). lia.
Qed.

Lemma retry_turn id target interval w st :
  0 <= interval ->
  fst (check_deployment_status id w) = Ok st -> falsy st = true ->
  wait_body id target interval w =
    (Ok Continue,
     slept_world interval
       [EPrint [FLit "Failed to check status, retrying..."]; ESleep interval]
       (snd (check_deployment_status id w))).
Proof.
  intros Hi Hc Hf.
  assert (Hrun : check_deployment_status id w =
                 (Ok st, snd (check_deployment_status id w))).
  { rewrite <- Hc. apply surjective_pairing. }
  rewrite wait_body_unfold, (bind_run _ _ _ _ _ Hrun).
  apply after_check_retry; assumption.
Qed.

Lemma wait_returns_at_turn id target interval timeout w k (d : dict) fuel :
  (forall i, (i < k)%nat ->
     clock (at_turn i id target interval w) - clock w < timeout /\
     fst (wait_body id target interval (at_turn i id target interval w)) = Ok Continue) ->
  clock (at_turn k id target interval w) - clock w < timeout ->
  fst (check_deployment_status id (at_turn k id target interval w)) = Ok (Some d) ->
  state_is d target = true ->
  (k < fuel)%nat ->
  wait_for_deployment fuel id target interval timeout w =
    (Ok (Some d),
     said_world [EPrint [FLit "Deployment reached "; FStr target; FLit " state!"]]
       (snd (check_deployment_status id (at_turn k id target interval w)))).
Proof.
  intros Hturns Htime Hd Ht Hfuel.
  replace fuel with (k + S (fuel - S k))%nat by lia.
  rewrite (wait_loop_turns id target interval timeout w k Hturns).
  rewrite wait_loop_unfold.
  destruct (Z.ltb_spec (clock (at_turn k id target interval w) - clock w) timeout)
    as [_ | Hge]; [| lia].
  assert (Hrun : check_deployment_status id (at_turn k id target interval w) =
                 (Ok (Some d),
                  snd (check_deployment_status id (at_turn k id target interval w)))).
  { rewrite <- Hd. apply surjective_pairing. }
  erewrite bind_run;
    [| rewrite wait_body_unfold, (bind_run _ _ _ _ _ Hrun);
       apply (after_check_reached target interval d _
                (state_is_nonempty d target Ht) Ht)].
  reflexivity.
Qed.

(** With checks that take no time and exact sleeps, [k] failed turns take
    [k] intervals. *)
Lemma at_turn_clock_instant id target interval w :
  0 <= interval ->
  (forall n, latency (net w n) = 0) ->
  (forall n, oversleep w n = 0) ->
  forall k,
    (forall i, (i < k)%nat ->
       exists st,
         fst (check_deployment_status id (at_turn i id target interval w)) = Ok st /\
         falsy st = true) ->
    clock (at_turn k id target interval w) = clock w + Z.of_nat k * interval.
Proof.
  intros Hi Hlat Hov. induction k as [| k IH]; intros Hfail.
  - cbn. lia.
  - destruct (Hfail k ltac:(lia)) as (st & Hc & Hf).
    cbn [at_turn]. rewrite (retry_turn id target interval _ st Hi Hc Hf).
    cbn [snd]. unfold slept_world. cbn [clock].
    destruct (at_turn_frame id target interval w k) as [(_ & Hn & Ho & _) _].
    destruct (check_deployment_status_spec id (at_turn k id target interval w))
      as (r & w1 & evs & Hrun & (_ & _ & Ho1 & _) & _ & _ & _ & Hcase).
    rewrite Hrun. cbn [snd]. rewrite Ho1, Ho, Hov.
    rewrite IH in Hcase by (intros i Hlt; apply Hfail; lia).
    rewrite Hn, Hlat in Hcase.
    destruct Hcase as [(_ & -> & _) | (_ & -> & _)]; lia.
Qed.

Lemma first_at_or_after (f : nat -> Z) (t : Z) :
  forall N,
    (forall i, (i < N)%nat -> f i < t) \/
    exists n, (n < N)%nat /\ t <= f n /\ forall i, (i < n)%nat -> f i < t.
Proof.
  induction N as [| N [IH | IH]].
  - left. intros i Hi. lia.
  - destruct (Z_lt_le_dec (f N) t) as [Hlt | Hge].
    + left. intros i Hi. destruct (Nat.eq_dec i N) as [-> | Hne]; [exact Hlt |].
      apply IH. lia.
    + right. exists N. repeat split; [lia | exact Hge | exact IH].
  - right. destruct IH as (n & Hn & Hge & Hlt). exists n. repeat split; [lia | assumption..].
Qed.

(** ** The claims about [wait_for_deployment] *)

(** C1, as amended.  When a status check of the polling loop returns a status
    whose state is the string [s], the turn ends the polling (it returns or
    raises instead of sleeping and going round again) if and only if [s] is
    the target state or FAILED.  With the default target PUBLISHED these are
    PUBLISHED and FAILED; any other string, known or not, keeps polling. *)
Theorem polling_stops_iff_target_or_failed :
  forall id target interval w (d : dict) w1 s,
    0 <= interval ->
    check_deployment_status id w = (Ok (Some d), w1) ->
    dict_get k_state d = Some (JStr s) ->
    (s = target \/ s = lit "FAILED") <->
    fst (wait_body id target interval w) <> Ok Continue.
Proof.
  intros id target interval w d w1 s Hi Hc Hs.
  assert (Hd : d <> []) by (intros ->; discriminate).
  rewrite wait_body_unfold, (bind_run _ _ _ _ _ Hc).
  pose proof (state_is_str d s target Hs) as Et.
  pose proof (state_is_str d s (lit "FAILED") Hs) as Ef.
  destruct (pystr_eqb s target) eqn:Bt.
  - rewrite (after_check_reached target interval d w1 Hd Et). cbn.
    split; [discriminate | intros _; left; apply pystr_eqb_eq, Bt].
  - destruct (pystr_eqb s (lit "FAILED")) eqn:Bf.
    + destruct (after_check_failed target interval d w1 Hd Et Ef) as (evs & -> & _).
      cbn. split.
      * intros _. destruct (errors_listable d); discriminate.
      * intros _. right. apply pystr_eqb_eq, Bf.
    + rewrite (after_check_pending target interval d w1 Hd Et Ef Hi). cbn.
      split.
      * intros [H | H]; apply pystr_eqb_eq in H; congruence.
      * intros H. contradiction H. reflexivity.
Qed.

Lemma polling_stops_iff_target_or_failed_witness :
  (lit "VALIDATED" = lit "VALIDATED" \/ lit "VALIDATED" = lit "FAILED") <->
  fst (wait_body (lit "dep-123") (lit "VALIDATED") 1000
         (demo_world (fun _ => json_reply 0 (in_state "VALIDATED")))) <> Ok Continue.
Proof.
  apply (polling_stops_iff_target_or_failed (lit "dep-123") (lit "VALIDATED") 1000
           (demo_world (fun _ => json_reply 0 (in_state "VALIDATED")))
           (in_state "VALIDATED")
           (snd (check_deployment_status (lit "dep-123")
                   (demo_world (fun _ => json_reply 0 (in_state "VALIDATED")))))
           (lit "VALIDATED")).
  - lia.
  - vm_compute. reflexivity.
  - reflexivity.
Defined.

(** C1 as stated fails: for the target VALIDATED an observed PUBLISHED does
    not end the polling. *)
Lemma published_continues_for_other_target :
  let w := demo_world (fun _ => json_reply 0 (in_state "PUBLISHED")) in
  fst (check_deployment_status (lit "dep-123") w) = Ok (Some (in_state "PUBLISHED")) /\
  fst (wait_body (lit "dep-123") (lit "VALIDATED") 1000 w) = Ok Continue.
Proof. split; vm_compute; reflexivity. Qed.

(** C2, at the input where the code departs from it.  A status check that
    returns [{"deploymentState": "FAILED", "errors": null}] makes
    [wait_for_deployment], waiting for PUBLISHED, raise [TypeError] out of
    its listing of the errors instead of returning the status. *)
Theorem failed_status_with_null_errors_raises :
  let w := demo_world (fun _ => json_reply 0 failed_with_null_errors) in
  fst (check_deployment_status (lit "dep-123") w) = Ok (Some failed_with_null_errors) /\
  fst (wait_for_deployment 3 (lit "dep-123") default_target_state
         default_check_interval default_timeout w) = Raise TypeError.
Proof. split; vm_compute; reflexivity. Qed.

(** Away from that input the turn that sees FAILED returns the status at
    once, whatever the target: after the check it only prints. *)
Lemma failed_status_returned_when_errors_listable :
  forall id target interval w (d : dict) w1,
    check_deployment_status id w = (Ok (Some d), w1) ->
    state_is d (lit "FAILED") = true ->
    errors_listable d = true ->
    exists evs,
      wait_body id target interval w = (Ok (Return (Some d)), said_world evs w1) /\
      Forall console evs.
Proof.
  intros id target interval w d w1 Hc Hf He.
  pose proof (state_is_nonempty d _ Hf) as Hd.
  rewrite wait_body_unfold, (bind_run _ _ _ _ _ Hc).
  destruct (state_is d target) eqn:Ht.
  - rewrite (after_check_reached target interval d w1 Hd Ht).
    eexists. split; [reflexivity | repeat constructor].
  - destruct (after_check_failed target interval d w1 Hd Ht Hf) as (evs & -> & Hevs).
    rewrite He. exists evs. split; [reflexivity | exact Hevs].
Qed.

(** With checks that take no time and exact sleeps, the bound of the claim
    as it was stated, [k * interval < timeout], is enough. *)
Corollary wait_reaches_target_after_instant_failures :
  forall fuel id target interval timeout w k (d : dict),
    0 <= interval ->
    (forall n, latency (net w n) = 0) ->
    (forall n, oversleep w n = 0) ->
    (forall i, (i < k)%nat ->
       exists st,
         fst (check_deployment_status id (at_turn i id target interval w)) = Ok st /\
         falsy st = true) ->
    fst (check_deployment_status id (at_turn k id target interval w)) = Ok (Some d) ->
    state_is d target = true ->
    Z.of_nat k * interval < timeout ->
    (k < fuel)%nat ->
    fst (wait_for_deployment fuel id target interval timeout w) = Ok (Some d).
Proof.
  intros fuel id target interval timeout w k d Hi Hlat Hov Hfail Hd Ht Htime Hfuel.
  assert (Hclock : forall i, (i <= k)%nat ->
            clock (at_turn i id target interval w) = clock w + Z.of_nat i * interval).
  { intros i Hle. apply at_turn_clock_instant; try assumption.
    intros j Hj. apply Hfail. lia. }
  rewrite (wait_returns_at_turn id target interval timeout w k d fuel);
    try assumption; [reflexivity | | rewrite Hclock by lia; lia].
  intros i Hlt. split; [rewrite Hclock by lia; nia |].
  destruct (Hfail i Hlt) as (st & Hc & Hf).
  rewrite (retry_turn id target interval _ st Hi Hc Hf). reflexivity.
Qed.

(** C3, as amended.  Let the first [k] status checks of a wait return no
    status ([None], or an empty status, which the loop takes for none) and
    the next one a status in the target state, whatever the credentials are
    and wherever they come from.  If the wall-clock time those [k] checks
    and the [k] sleeps after them take stays below [timeout], the interval
    being no negative number and time not running backwards, the call
    returns that status: after the last check it prints one line and
    returns, and each failed check before it was followed by the retry line
    and one sleep of one interval, after which the next check was made. *)
Theorem failed_checks_are_retried_within_budget :
  forall fuel id target interval timeout w k (d : dict),
    0 <= interval ->
    (forall n, 0 <= latency (net w n)) ->
    (forall n, 0 <= oversleep w n) ->
    (forall i, (i < k)%nat ->
       exists st,
         fst (check_deployment_status id (at_turn i id target interval w)) = Ok st /\
         falsy st = true) ->
    fst (check_deployment_status id (at_turn k id target interval w)) = Ok (Some d) ->
    state_is d target = true ->
    clock (at_turn k id target interval w) - clock w < timeout ->
    (k < fuel)%nat ->
    wait_for_deployment fuel id target interval timeout w =
      (Ok (Some d),
       said_world [EPrint [FLit "Deployment reached "; FStr target; FLit " state!"]]
         (snd (check_deployment_status id (at_turn k id target interval w)))) /\
    (forall i, (i < k)%nat ->
       at_turn (S i) id target interval w =
         slept_world interval
           [EPrint [FLit "Failed to check status, retrying..."]; ESleep interval]
           (snd (check_deployment_status id (at_turn i id target interval w)))).
Proof.
  intros fuel id target interval timeout w k d Hi Hlat Hov Hfail Hd Ht Htime Hfuel.
  assert (Hturn : forall i, (i < k)%nat ->
            wait_body id target interval (at_turn i id target interval w) =
              (Ok Continue,
               slept_world interval
                 [EPrint [FLit "Failed to check status, retrying..."]; ESleep interval]
                 (snd (check_deployment_status id (at_turn i id target interval w))))).
  { intros i Hlt. destruct (Hfail i Hlt) as (st & Hc & Hf).
    apply (retry_turn id target interval _ st Hi Hc Hf). }
  assert (Hcont : forall i, (i < k)%nat ->
            fst (wait_body id target interval (at_turn i id target interval w))
            = Ok Continue).
  { intros i Hlt. rewrite (Hturn i Hlt). reflexivity. }
  destruct (at_turn_clock id target interval w Hi Hlat Hov k Hcont) as (_ & _ & Hmono).
  split.
  - apply wait_returns_at_turn; try assumption.
    intros i Hlt. split; [| apply Hcont, Hlt].
    specialize (Hmono i ltac:(lia)). lia.
  - intros i Hlt. cbn [at_turn]. rewrite (Hturn i Hlt). reflexivity.
Qed.

Lemma failed_checks_are_retried_within_budget_witness :
  wait_for_deployment 3 (lit "dep-123") (lit "PUBLISHED") 1000 3000
    (prompt_world None [lit "u"; lit "p"; lit "u"; lit "p"; lit "u"; lit "p"]
                  (two_errors_then_published 0)) =
    (Ok (Some (in_state "PUBLISHED")),
     said_world
       [EPrint [FLit "Deployment reached "; FStr (lit "PUBLISHED"); FLit " state!"]]
       (snd (check_deployment_status (lit "dep-123")
               (at_turn 2 (lit "dep-123") (lit "PUBLISHED") 1000
                  (prompt_world None [lit "u"; lit "p"; lit "u"; lit "p"; lit "u"; lit "p"]
                                (two_errors_then_published 0)))))).
Proof.
  apply (failed_checks_are_retried_within_budget 3%nat (lit "dep-123") (lit "PUBLISHED")
           1000 3000
           (prompt_world None [lit "u"; lit "p"; lit "u"; lit "p"; lit "u"; lit "p"]
                         (two_errors_then_published 0))
           2 (in_state "PUBLISHED")).
  - lia.
  - intros n. destruct n as [| [| n]]; simpl; try lia.
    destruct n; simpl; lia.
  - intros n. simpl. lia.
  - intros i Hi. exists None.
    destruct i as [| [| i]]; [| | lia]; split; vm_compute; reflexivity.
  - vm_compute. reflexivity.
  - reflexivity.
  - vm_compute. reflexivity.
  - lia.
Defined.

(** C3 as stated fails: two failed checks that take a second each, with an
    interval of one second and a timeout of three, use up the budget, so
    that [k < timeout / interval] does not save the call. *)
Lemma slow_failed_checks_use_up_the_timeout :
  let w := demo_world (two_errors_then_published 1000) in
  (2 < 3000 / 1000) /\
  failed_check (outcome (net w 0%nat)) = true /\
  failed_check (outcome (net w 1%nat)) = true /\
  check_result (outcome (net w 2%nat)) = Ok (Some (in_state "PUBLISHED")) /\
  fst (wait_for_deployment 10 (lit "dep-123") (lit "PUBLISHED") 1000 3000 w) = Ok None.
Proof. cbv zeta. repeat split; vm_compute; reflexivity. Qed.

(** C4.  When no exchange ever shows the target state or FAILED (and none
    interrupts the client), the interval being positive and time not running
    backwards, [wait_for_deployment] returns [None], the timeout signal, at
    the first test of its loop condition that finds [timeout] or more
    elapsed since the call began: turn [n] is that test, every turn before
    it began with less than [timeout] elapsed, and after that test the call
    only prints the timeout line, so that nothing is checked or slept past
    it.  There are at most 1 + max(0, timeout) / interval turns, each with at
    most one request; all the call sent were status queries for this
    deployment, which leave the deployment as it is. *)
Theorem wait_times_out_without_terminal_state :
  forall id target interval timeout w,
    0 < interval ->
    (forall n, 0 <= latency (net w n)) ->
    (forall n, 0 <= oversleep w n) ->
    (forall n, quiet target (outcome (net w n)) = true) ->
    exists n,
      (forall i, (i < n)%nat ->
         clock (at_turn i id target interval w) - clock w < timeout) /\
      Z.of_nat n <= 1 + Z.max 0 timeout / interval /\
      forall fuel, (n < fuel)%nat ->
        exists w' evs,
          wait_for_deployment fuel id target interval timeout w = (Ok None, w') /\
          w' = said_world
                 [EPrint [FLit "Timeout reached. Deployment did not reach ";
                          FStr target; FLit " state within "; FTicks timeout;
                          FLit " seconds."]]
                 (at_turn n id target interval w) /\
          timeout <= clock w' - clock w /\
          (sent w' <= sent w + n)%nat /\
          trace w' = trace w ++ evs /\
          Forall (waiting id interval) evs.
Proof.
  intros id target interval timeout w Hi Hlat Hov Hq.
  assert (Hcont : forall i,
            fst (wait_body id target interval (at_turn i id target interval w))
            = Ok Continue).
  { intros i.
    destruct (at_turn_frame id target interval w i) as [(_ & Hn & Ho & _) _].
    destruct (wait_body_quiet id target interval (at_turn i id target interval w))
      as (w1 & Hb & _); [lia | rewrite Hn; apply Hlat | rewrite Ho; apply Hov
                        | rewrite Hn; apply Hq |].
    rewrite Hb. reflexivity. }
  assert (Hclock : forall n,
            clock w + Z.of_nat n * interval <= clock (at_turn n id target interval w) /\
            (sent (at_turn n id target interval w) <= sent w + n)%nat).
  { intros n.
    destruct (at_turn_clock id target interval w ltac:(lia) Hlat Hov n
                (fun i _ => Hcont i)) as (H1 & H2 & _).
    split; assumption. }
  destruct (first_at_or_after
              (fun i => clock (at_turn i id target interval w) - clock w) timeout
              (S (Z.to_nat timeout))) as [Hall | (n & _ & Hge & Hlt)].
  { specialize (Hall (Z.to_nat timeout) ltac:(lia)). cbv beta in Hall.
    destruct (Hclock (Z.to_nat timeout)) as [Hc _]. nia. }
  cbv beta in Hge, Hlt.
  exists n. split; [exact Hlt |]. split.
  { destruct n as [| m]; [pose proof (Z.div_pos (Z.max 0 timeout) interval); lia |].
    specialize (Hlt m ltac:(lia)). destruct (Hclock m) as [Hc _].
    assert (Hm : Z.of_nat m <= Z.max 0 timeout / interval).
    { apply Z.div_le_lower_bound; [exact Hi | nia]. }
    lia. }
  intros fuel Hfuel.
  replace fuel with (n + S (fuel - S n))%nat by lia.
  rewrite wait_loop_turns by (intros i Hl; split; [apply Hlt, Hl | apply Hcont]).
  rewrite wait_loop_unfold.
  destruct (Z.ltb_spec (clock (at_turn n id target interval w) - clock w) timeout)
    as [Hlt' | _]; [lia |].
  destruct (at_turn_frame id target interval w n) as [_ (evs & Htr & Hev)].
  do 2 eexists. split; [reflexivity |]. split; [reflexivity |].
  unfold said_world. cbn [clock sent trace].
  split; [exact Hge |]. split; [apply Hclock |].
  split; [rewrite Htr, <- app_assoc; reflexivity |].
  apply Forall_app. split; [exact Hev | repeat constructor].
Qed.

Lemma wait_times_out_without_terminal_state_witness :
  exists n,
    (forall i, (i < n)%nat ->
       clock (at_turn i (lit "dep-123") (lit "PUBLISHED") (1 * ticks_per_second)
                (demo_world (fun _ => json_reply 0 (in_state "VALIDATING"))))
       - clock (demo_world (fun _ => json_reply 0 (in_state "VALIDATING")))
       < 3 * ticks_per_second) /\
    Z.of_nat n <= 1 + Z.max 0 (3 * ticks_per_second) / (1 * ticks_per_second) /\
    forall fuel, (n < fuel)%nat ->
      exists w' evs,
        wait_for_deployment fuel (lit "dep-123") (lit "PUBLISHED")
          (1 * ticks_per_second) (3 * ticks_per_second)
          (demo_world (fun _ => json_reply 0 (in_state "VALIDATING"))) = (Ok None, w') /\
        w' = said_world
               [EPrint [FLit "Timeout reached. Deployment did not reach ";
                        FStr (lit "PUBLISHED"); FLit " state within ";
                        FTicks (3 * ticks_per_second); FLit " seconds."]]
               (at_turn n (lit "dep-123") (lit "PUBLISHED") (1 * ticks_per_second)
                  (demo_world (fun _ => json_reply 0 (in_state "VALIDATING")))) /\
        3 * ticks_per_second
          <= clock w' - clock (demo_world (fun _ => json_reply 0 (in_state "VALIDATING"))) /\
        (sent w' <= sent (demo_world (fun _ => json_reply 0 (in_state "VALIDATING"))) + n)%nat /\
        trace w' =
          trace (demo_world (fun _ => json_reply 0 (in_state "VALIDATING"))) ++ evs /\
        Forall (waiting (lit "dep-123") (1 * ticks_per_second)) evs.
Proof.
  apply (wait_times_out_without_terminal_state (lit "dep-123") (lit "PUBLISHED")
           (1 * ticks_per_second) (3 * ticks_per_second)
           (demo_world (fun _ => json_reply 0 (in_state "VALIDATING")))).
  - reflexivity.
  - intros n. simpl. lia.
  - intros n. simpl. lia.
  - intros n. reflexivity.
Defined.

(** The scenario of the specification: interval 1 s, timeout 3 s, a status
    that is always VALIDATING.  Three checks, three sleeps, and the call
    returns the timeout at 3 s. *)
Example always_validating_times_out_at_the_deadline :
  let w := demo_world (fun _ => json_reply 0 (in_state "VALIDATING")) in
  let run := wait_for_deployment 10 (lit "dep-123") (lit "PUBLISHED")
               (1 * ticks_per_second) (3 * ticks_per_second) w in
  fst run = Ok None /\
  clock (snd run) - clock w = 3 * ticks_per_second /\
  sent (snd run) = 3%nat /\ slept (snd run) = 3%nat.
Proof. cbv zeta. repeat split; vm_compute; reflexivity. Qed.

Lemma waiting_full_sleep id interval evs :
  Forall (waiting id interval) evs -> Forall (full_sleep interval) evs.
Proof.
  apply Forall_impl. intros [l | p | r | d | p h | h]; cbn; intros H;
    try exact I; try contradiction; assumption.
Qed.

(** C9.  Every sleep of a wait lasts exactly [check_interval], and a wait that
    ends by timeout ends no earlier than [timeout] after it began.  A failed
    check is followed by a whole sleep whatever is left of the budget.  The
    bound is not exact: with an interval of 2000 and a timeout of 3000 the
    second failed check comes when 1000 are left, is followed by a sleep of
    2000, and the call returns at 4000. *)
Theorem sleeps_are_whole_intervals_and_timeout_is_a_lower_bound :
  (forall fuel id target interval timeout w r w',
     wait_for_deployment fuel id target interval timeout w = (r, w') ->
     (exists evs, trace w' = trace w ++ evs /\ Forall (full_sleep interval) evs) /\
     (r = Ok None -> timeout <= clock w' - clock w))
  /\
  (forall id target interval w status w1,
     0 <= interval ->
     check_deployment_status id w = (Ok status, w1) ->
     falsy status = true ->
     exists w',
       wait_body id target interval w = (Ok Continue, w') /\
       slept w' = S (slept w1) /\
       clock w' = clock w1 + interval + oversleep w1 (slept w1))
  /\
  (let w := demo_world (fun _ => plain_reply 0 503 "unavailable") in
   let run := wait_for_deployment 5 (lit "dep-123") (lit "PUBLISHED") 2000 3000 w in
   fst run = Ok None /\
   clock (snd run) - clock w = 4000 /\
   actions (trace (snd run))
   = rounds (status_request (lit "dep-123") [(lit "Authorization", lit "Bearer dTpw")])
            2000 2).
Proof.
  split.
  - intros fuel id target interval timeout w r w' Hrun.
    rewrite wait_for_deployment_unfold in Hrun.
    match type of Hrun with wait_loop _ _ _ _ _ _ ?w0 = _ =>
      destruct (wait_loop_spec fuel id target interval timeout (clock w) w0)
        as (r2 & w2 & evs & Hrun' & _ & Htr & Hev & Hto)
    end.
    rewrite Hrun in Hrun'. injection Hrun' as <- <-. split.
    + eexists. split.
      * rewrite Htr. cbn. rewrite <- app_assoc. reflexivity.
      * constructor; [exact I | apply (waiting_full_sleep id), Hev].
    + exact Hto.
  - split.
    + intros id target interval w status w1 Hi Hc Hf.
      rewrite wait_body_unfold, (bind_run _ _ _ _ _ Hc).
      rewrite (after_check_retry target interval status w1 Hf Hi).
      eexists. split; [reflexivity |]. split; reflexivity.
    + cbv zeta. repeat split; vm_compute; reflexivity.
Qed.

Lemma sleeps_are_whole_intervals_witness :
  (exists evs,
     trace (snd (wait_for_deployment 5 (lit "dep-123") (lit "PUBLISHED") 2000 3000
                   (demo_world (fun _ => plain_reply 0 503 "unavailable"))))
     = trace (demo_world (fun _ => plain_reply 0 503 "unavailable")) ++ evs /\
     Forall (full_sleep 2000) evs) /\
  (fst (wait_for_deployment 5 (lit "dep-123") (lit "PUBLISHED") 2000 3000
          (demo_world (fun _ => plain_reply 0 503 "unavailable"))) = Ok None ->
   3000 <= clock (snd (wait_for_deployment 5 (lit "dep-123") (lit "PUBLISHED") 2000 3000
                         (demo_world (fun _ => plain_reply 0 503 "unavailable"))))
           - clock (demo_world (fun _ => plain_reply 0 503 "unavailable"))).
Proof.
  apply (proj1 sleeps_are_whole_intervals_and_timeout_is_a_lower_bound 5%nat (lit "dep-123")
           (lit "PUBLISHED") 2000 3000
           (demo_world (fun _ => plain_reply 0 503 "unavailable"))).
  apply surjective_pairing.
Defined.


Lemma strip_prefix_app prefix s : strip_prefix prefix (prefix ++ s) = Some s.
Proof.
  induction prefix as [| c prefix IH]; [destruct s; reflexivity |].
  cbn. rewrite N.eqb_refl. exact IH.
Qed.

(** ** The claim about [get_auth_header] *)



(** ** Upload *)

Lemma closes_app h a b : closes h (a ++ b) = (closes h a + closes h b)%nat.
Proof. unfold closes. rewrite filter_app, length_app. reflexivity. Qed.

Lemma closes_console h evs : Forall console evs -> closes h evs = 0%nat.
Proof.
  induction 1 as [| ev evs Hev _ IH]; [reflexivity |].
  destruct ev; try contradiction; exact IH.
Qed.

(** C10.  When opening the bundle raises, [upload_bundle] raises that very
    exception, also one that [except Exception] would catch; it has only
    printed its first line by then: no request, no error report, no close. *)
Theorem upload_open_failure_propagates :
  forall bundle_path name auto_publish w e,
    fs w bundle_path = Some e ->
    upload_bundle bundle_path name auto_publish w =
      (Raise e, said_world [EPrint [FLit "Uploading bundle: "; FStr bundle_path]] w).
Proof.
  intros path name auto w e Hfs. unfold upload_bundle, open_rb, said_world. run.
  rewrite Hfs. reflexivity.
Qed.

Lemma upload_open_failure_propagates_witness :
  upload_bundle (lit "bundle.zip") None true missing_bundle_world =
    (Raise FileNotFoundError,
     said_world [EPrint [FLit "Uploading bundle: "; FStr (lit "bundle.zip")]]
                missing_bundle_world).
Proof.
  apply (upload_open_failure_propagates (lit "bundle.zip") None true
           missing_bundle_world FileNotFoundError).
  reflexivity.
Defined.

(** C6.  When opening the bundle succeeds, [upload_bundle] ends, on whatever
    path (identifier returned, error reported, exception caught or passed
    on), with the handle it opened closed exactly once. *)
Theorem upload_closes_bundle_exactly_once :
  forall bundle_path name auto_publish w,
    fs w bundle_path = None ->
    exists r w' evs,
      upload_bundle bundle_path name auto_publish w = (r, w') /\
      r <> Unfinished /\
      trace w' = trace w ++ evs /\
      In (EOpen bundle_path (opened w)) evs /\
      closes (opened w) evs = 1%nat.
Proof.
  intros path name auto w Hfs. unfold upload_bundle, open_rb. run. rewrite Hfs. run.
  match goal with |- context [get_auth_header ?w1] =>
    destruct (get_auth_header_spec w1) as (ra & stdin' & evs & -> & Hevs & Hra) end.
  cbn [environ stdin net sent oversleep slept clock fs opened trace] in *.
  destruct ra as [headers | e |]; [| | contradiction].
  - unfold http. run.
    destruct (outcome (net w (sent w))) as [e | resp].
    + destruct (is_Exception e); run; trace_shape;
        (do 3 eexists; split; [reflexivity |]; split; [discriminate |];
         split; [reflexivity |]; split; [right; left; reflexivity |]);
        change (?a :: ?b :: ?l) with ([a; b] ++ l);
        rewrite !closes_app, (closes_console _ evs Hevs); cbn;
        rewrite Nat.eqb_refl; reflexivity.
    + destruct (status_code resp =? 201); run; trace_shape;
        (do 3 eexists; split; [reflexivity |]; split; [discriminate |];
         split; [reflexivity |]; split; [right; left; reflexivity |]);
        change (?a :: ?b :: ?l) with ([a; b] ++ l);
        rewrite !closes_app, (closes_console _ evs Hevs); cbn;
        rewrite Nat.eqb_refl; reflexivity.
  - cbn in Hra. rewrite Hra. run. trace_shape.
    do 3 eexists. split; [reflexivity |]. split; [discriminate |].
    split; [reflexivity |]. split; [right; left; reflexivity |].
    change (?a :: ?b :: ?l) with ([a; b] ++ l).
    rewrite !closes_app, (closes_console _ evs Hevs). cbn.
    rewrite Nat.eqb_refl. reflexivity.
Qed.

Lemma upload_closes_bundle_exactly_once_witness :
  exists r w' evs,
    upload_bundle (lit "bundle.zip") None true
      (demo_world (fun _ => plain_reply 0 201 "dep-123")) = (r, w') /\
    r <> Unfinished /\
    trace w' = trace (demo_world (fun _ => plain_reply 0 201 "dep-123")) ++ evs /\
    In (EOpen (lit "bundle.zip")
              (opened (demo_world (fun _ => plain_reply 0 201 "dep-123")))) evs /\
    closes (opened (demo_world (fun _ => plain_reply 0 201 "dep-123"))) evs = 1%nat.
Proof.
  apply (upload_closes_bundle_exactly_once (lit "bundle.zip") None true
           (demo_world (fun _ => plain_reply 0 201 "dep-123"))).
  reflexivity.
Defined.




(** ** Publish *)




(** ** Drop, transport faults, missing credentials, status checks *)

Lemma console_no_request evs : Forall console evs -> no_request evs.
Proof.
  apply Forall_impl. intros [l | p | r | d | p h | h]; cbn; intros H;
    try contradiction; exact I.
Qed.

Lemma get_auth_header_failure w e :
  auth_failure w = Some e ->
  exists stdin' evs,
    get_auth_header w =
      (Raise e,
       mkWorld (environ w) stdin' (net w) (sent w) (oversleep w) (slept w)
               (clock w) (fs w) (opened w) (trace w ++ evs))
    /\ Forall console evs /\ is_Exception e = true
    /\ (resolved_credentials w = None -> stdin' = []).
Proof.
  unfold auth_failure, resolved_credentials, env_credentials. intros Hf.
  unfold get_auth_header. run.
  destruct (environ w (lit "SONATYPE_USERNAME")) as [[| c u] |];
    destruct (environ w (lit "SONATYPE_PASSWORD")) as [[| d p] |]; run.
  all: try (destruct (stdin w) as [| l1 [| l2 rest]]; run).
  all: try (match type of Hf with context [auth_header_value ?a ?b] =>
              destruct (auth_header_value a b) end).
  all: try discriminate.
  all: injection Hf as <-; trace_shape.
  all: try (do 2 eexists; split; [reflexivity |]; split; [repeat constructor |];
            split; [reflexivity |]; intros; (reflexivity || discriminate)).
  all: exists (stdin w), []; rewrite app_nil_r; destruct w;
    (split; [reflexivity |]); split; [constructor |]; split; [reflexivity |];
    intros; discriminate.
Qed.

Lemma auth_events_console w : Forall console (auth_events w).
Proof. unfold auth_events. destruct (env_credentials w); repeat constructor. Qed.

Lemma actions_auth_events w : actions (auth_events w) = [].
Proof. apply actions_console, auth_events_console. Qed.

Lemma actions_cons ev evs :
  actions (ev :: evs) = (if is_action ev then [ev] else []) ++ actions evs.
Proof. unfold actions. cbn. destruct (is_action ev); reflexivity. Qed.

Ltac actions_calc :=
  repeat first [rewrite actions_app | rewrite actions_cons | rewrite actions_auth_events];
  cbn [is_action app actions filter].

Lemma check_deployment_status_resolved id w u p v :
  resolved_credentials w = Some (u, p) ->
  auth_header_value u p = Some v ->
  exists evs,
    check_deployment_status id w =
      (check_result (outcome (net w (sent w))),
       mkWorld (environ w) (auth_stdin w) (net w) (S (sent w)) (oversleep w) (slept w)
               (clock w + latency (net w (sent w))) (fs w) (opened w)
               (trace w ++ evs))
    /\ Forall (polling id) evs
    /\ actions evs = [ERequest (status_request id [(lit "Authorization", v)])].
Proof.
  intros Hc Hv. rewrite check_deployment_status_unfold. run.
  match goal with |- context [get_auth_header ?w1] =>
    rewrite (get_auth_header_resolved w1 u p v Hc Hv) end.
  match goal with |- context [status_exchange id ?h ?w2] =>
    destruct (status_exchange_spec id h w2) as (post & -> & Hpost) end.
  cbn [environ stdin net sent oversleep slept clock fs opened trace].
  eexists. split; [rewrite <- !app_assoc; reflexivity |]. split.
  - constructor; [exact I |]. apply Forall_app. split.
    + apply console_polling, auth_events_console.
    + constructor; [eexists; reflexivity | apply console_polling, Hpost].
  - actions_calc. rewrite (actions_console post Hpost). reflexivity.
Qed.



(** X2. When the HTTP call raises, each of the four operations turns the
    exception into its failure value ([None] for a status check and an
    upload, [False] for publish and drop) if [except Exception] catches it,
    and lets it through unchanged if it does not (an interrupt, an exit). *)
Theorem transport_faults_become_failure_values :
  forall deployment_id bundle_path name auto_publish w u p v e,
    resolved_credentials w = Some (u, p) ->
    auth_header_value u p = Some v ->
    fs w bundle_path = None ->
    outcome (net w (sent w)) = Fault e ->
    fst (check_deployment_status deployment_id w) = fault_result None e /\
    fst (publish_deployment deployment_id w) = fault_result false e /\
    fst (drop_deployment deployment_id w) = fault_result false e /\
    fst (upload_bundle bundle_path name auto_publish w) = fault_result None e.
Proof.
  intros id path name auto w u p v e Hr Hv Hfs Hout. unfold fault_result.
  split; [| split; [| split]].
  - destruct (check_deployment_status_resolved id w u p v Hr Hv) as (evs & -> & _).
    rewrite Hout. reflexivity.
  - unfold publish_deployment. run.
    match goal with |- context [get_auth_header ?w1] =>
      rewrite (get_auth_header_resolved w1 u p v Hr Hv) end.
    unfold http. run. rewrite Hout. destruct (is_Exception e); reflexivity.
  - unfold drop_deployment. run.
    match goal with |- context [get_auth_header ?w1] =>
      rewrite (get_auth_header_resolved w1 u p v Hr Hv) end.
    unfold http. run. rewrite Hout. destruct (is_Exception e); reflexivity.
  - unfold upload_bundle, open_rb. run. rewrite Hfs. run.
    match goal with |- context [get_auth_header ?w1] =>
      rewrite (get_auth_header_resolved w1 u p v Hr Hv) end.
    unfold http. run. rewrite Hout. destruct (is_Exception e); reflexivity.
Qed.

Lemma transport_faults_become_failure_values_witness :
  fst (check_deployment_status (lit "dep-123") (demo_world unreachable)) = Ok None /\
  fst (publish_deployment (lit "dep-123") (demo_world unreachable)) = Ok false /\
  fst (drop_deployment (lit "dep-123") (demo_world unreachable)) = Ok false /\
  fst (upload_bundle (lit "bundle.zip") None false (demo_world unreachable)) = Ok None.
Proof.
  apply (transport_faults_become_failure_values (lit "dep-123") (lit "bundle.zip") None false
           (demo_world unreachable) (lit "u") (lit "p") (lit "Bearer dTpw") ConnectionError);
    reflexivity.
Defined.

Ltac local_ok Hevs :=
  unfold local_step; cbn [sent slept clock trace];
  split; [reflexivity |]; split; [reflexivity |]; split; [reflexivity |];
  eexists; split; [rewrite <- !app_assoc; reflexivity |];
  actions_calc; rewrite ?(actions_console _ Hevs); reflexivity.

(** X3. [get_auth_header()] is evaluated as an argument of the request,
    inside the [try]: when it raises (no line left to read, or credentials
    that UTF-8 cannot encode), each of the four operations returns its
    failure value; no HTTP request is sent, nothing sleeps and no time
    passes.  Besides console output the status check, the publish and the
    drop do nothing at all, and the upload only opens the bundle and closes
    it again. *)
Theorem no_request_without_credentials :
  forall deployment_id bundle_path name auto_publish w e,
    auth_failure w = Some e ->
    fs w bundle_path = None ->
    (exists w', check_deployment_status deployment_id w = (Ok None, w') /\
                local_step [] w w') /\
    (exists w', publish_deployment deployment_id w = (Ok false, w') /\
                local_step [] w w') /\
    (exists w', drop_deployment deployment_id w = (Ok false, w') /\
                local_step [] w w') /\
    (exists w', upload_bundle bundle_path name auto_publish w = (Ok None, w') /\
                local_step [EOpen bundle_path (opened w); EClose (opened w)] w w').
Proof.
  intros id path name auto w e Hf Hfs.
  split; [| split; [| split]].
  - rewrite check_deployment_status_unfold. run.
    match goal with |- context [get_auth_header ?w1] =>
      destruct (get_auth_header_failure w1 e Hf) as (stdin' & evs & -> & Hevs & He & _) end.
    rewrite He. run. eexists. split; [reflexivity |]. local_ok Hevs.
  - unfold publish_deployment. run.
    match goal with |- context [get_auth_header ?w1] =>
      destruct (get_auth_header_failure w1 e Hf) as (stdin' & evs & -> & Hevs & He & _) end.
    rewrite He. run. eexists. split; [reflexivity |]. local_ok Hevs.
  - unfold drop_deployment. run.
    match goal with |- context [get_auth_header ?w1] =>
      destruct (get_auth_header_failure w1 e Hf) as (stdin' & evs & -> & Hevs & He & _) end.
    rewrite He. run. eexists. split; [reflexivity |]. local_ok Hevs.
  - unfold upload_bundle, open_rb. run. rewrite Hfs. run.
    match goal with |- context [get_auth_header ?w1] =>
      destruct (get_auth_header_failure w1 e Hf) as (stdin' & evs & -> & Hevs & He & _) end.
    rewrite He. run. eexists. split; [reflexivity |]. local_ok Hevs.
Qed.

Lemma no_request_without_credentials_witness :
  (exists w', check_deployment_status (lit "dep-123")
                (prompt_world None [] unreachable) = (Ok None, w') /\
              local_step [] (prompt_world None [] unreachable) w') /\
  (exists w', publish_deployment (lit "dep-123")
                (prompt_world None [] unreachable) = (Ok false, w') /\
              local_step [] (prompt_world None [] unreachable) w') /\
  (exists w', drop_deployment (lit "dep-123")
                (prompt_world None [] unreachable) = (Ok false, w') /\
              local_step [] (prompt_world None [] unreachable) w') /\
  (exists w', upload_bundle (lit "bundle.zip") None false
                (prompt_world None [] unreachable) = (Ok None, w') /\
              local_step [EOpen (lit "bundle.zip")
                                (opened (prompt_world None [] unreachable));
                          EClose (opened (prompt_world None [] unreachable))]
                         (prompt_world None [] unreachable) w').
Proof.
  apply (no_request_without_credentials (lit "dep-123") (lit "bundle.zip") None false
           (prompt_world None [] unreachable) EOFError); reflexivity.
Defined.

(** X4. [check_deployment_status] returns a status [d] only when it has
    sent its request and the reply had status 200, a body that is the JSON
    object [d], and values under [purls] and [errors] that are absent, falsy
    or can be iterated. *)
Theorem status_is_returned_only_for_200_with_an_object :
  forall deployment_id w (d : dict) w',
    check_deployment_status deployment_id w = (Ok (Some d), w') ->
    sent w' = S (sent w) /\
    exists resp,
      outcome (net w (sent w)) = Reply resp /\
      status_code resp = 200 /\ json_body resp = Some (JObj d) /\
      listing_ok k_purls d = true /\ listing_ok k_errors d = true.
Proof.
  intros id w d w' Hrun.
  destruct (check_deployment_status_spec id w)
    as (r & w1 & evs & Hc & _ & _ & _ & _ & Hcase).
  rewrite Hrun in Hc. injection Hc as <- <-.
  destruct Hcase as [(_ & _ & Hr) | (Hs & _ & Hr)]; [discriminate |].
  split; [exact Hs |].
  destruct (outcome (net w (sent w))) as [e | resp]; cbn [check_result] in Hr.
  { destruct (is_Exception e); discriminate. }
  exists resp. split; [reflexivity |].
  unfold status_of in Hr.
  destruct (Z.eqb_spec (status_code resp) 200) as [E | _]; [| discriminate].
  destruct (json_body resp) as [[| | | | | d'] |]; try discriminate.
  destruct (listing_ok k_purls d') eqn:Hp; [| discriminate].
  destruct (listing_ok k_errors d') eqn:He; [| discriminate].
  cbn in Hr. assert (E' : d = d') by congruence. subst d'.
  repeat split; assumption.
Qed.

Lemma status_is_returned_only_for_200_with_an_object_witness :
  sent (snd (check_deployment_status (lit "dep-123")
               (demo_world (fun _ => json_reply 0 (in_state "VALIDATED")))))
  = S (sent (demo_world (fun _ => json_reply 0 (in_state "VALIDATED")))) /\
  exists resp,
    outcome (net (demo_world (fun _ => json_reply 0 (in_state "VALIDATED")))
                 (sent (demo_world (fun _ => json_reply 0 (in_state "VALIDATED")))))
    = Reply resp /\
    status_code resp = 200 /\ json_body resp = Some (JObj (in_state "VALIDATED")) /\
    listing_ok k_purls (in_state "VALIDATED") = true /\
    listing_ok k_errors (in_state "VALIDATED") = true.
Proof.
  apply (status_is_returned_only_for_200_with_an_object (lit "dep-123")
           (demo_world (fun _ => json_reply 0 (in_state "VALIDATED")))
           (in_state "VALIDATED")
           (snd (check_deployment_status (lit "dep-123")
                   (demo_world (fun _ => json_reply 0 (in_state "VALIDATED")))))).
  vm_compute. reflexivity.
Defined.

Lemma check_deployment_status_footprint id w :
  exists r w' evs,
    check_deployment_status id w = (r, w') /\
    trace w' = trace w ++ evs /\
    ((actions evs = [] /\ sent w' = sent w /\ clock w' = clock w) \/
     ((exists headers, actions evs = [ERequest (status_request id headers)]) /\
      sent w' = S (sent w) /\ clock w' = clock w + latency (net w (sent w)))).
Proof.
  rewrite check_deployment_status_unfold. run.
  match goal with |- context [get_auth_header ?w1] =>
    destruct (get_auth_header_spec w1) as (ra & stdin' & evs & -> & Hevs & Hra) end.
  cbn [environ stdin net sent oversleep slept clock fs opened trace] in *.
  destruct ra as [headers | e |]; [| | contradiction].
  - match goal with |- context [status_exchange id headers ?w2] =>
      destruct (status_exchange_spec id headers w2) as (post & -> & Hpost) end.
    cbn [environ stdin net sent oversleep slept clock fs opened trace].
    do 3 eexists. split; [reflexivity |].
    cbn [environ stdin net sent oversleep slept clock fs opened trace].
    split; [rewrite <- !app_assoc; reflexivity |].
    right. split; [| split; reflexivity].
    exists headers. actions_calc.
    rewrite (actions_console _ Hevs), (actions_console _ Hpost). reflexivity.
  - cbn in Hra. rewrite Hra. run.
    do 3 eexists. split; [reflexivity |].
    cbn [environ stdin net sent oversleep slept clock fs opened trace].
    split; [rewrite <- !app_assoc; reflexivity |].
    left. split; [| split; reflexivity].
    actions_calc. rewrite (actions_console _ Hevs). reflexivity.
Qed.

(** X5. However one call of [check_deployment_status] ends, all it has
    done besides console output is at most one HTTP request, a status query
    for this deployment: it has not slept, opened or closed a file, or
    changed the environment, and time has passed only while the request was
    out. *)
Theorem status_check_makes_at_most_one_status_query :
  forall deployment_id w r w',
    check_deployment_status deployment_id w = (r, w') ->
    frame w w' /\ slept w' = slept w /\
    exists evs,
      trace w' = trace w ++ evs /\
      ((actions evs = [] /\ sent w' = sent w /\ clock w' = clock w) \/
       ((exists headers,
           actions evs = [ERequest (status_request deployment_id headers)]) /\
        sent w' = S (sent w) /\ clock w' = clock w + latency (net w (sent w)))).
Proof.
  intros id w r w' Hrun.
  destruct (check_deployment_status_spec id w)
    as (r1 & w1 & evs1 & Hc & Hfr & Hsl & _).
  rewrite Hrun in Hc. injection Hc as <- <-.
  destruct (check_deployment_status_footprint id w) as (r2 & w2 & evs & Hc & Htr & Hcase).
  rewrite Hrun in Hc. injection Hc as <- <-.
  split; [exact Hfr |]. split; [exact Hsl |].
  exists evs. split; assumption.
Qed.

Lemma status_check_makes_at_most_one_status_query_witness :
  frame (prompt_world None [] unreachable)
        (snd (check_deployment_status (lit "dep-123") (prompt_world None [] unreachable))) /\
  slept (snd (check_deployment_status (lit "dep-123") (prompt_world None [] unreachable)))
  = slept (prompt_world None [] unreachable) /\
  exists evs,
    trace (snd (check_deployment_status (lit "dep-123") (prompt_world None [] unreachable)))
    = trace (prompt_world None [] unreachable) ++ evs /\
    ((actions evs = [] /\
      sent (snd (check_deployment_status (lit "dep-123")
                   (prompt_world None [] unreachable)))
      = sent (prompt_world None [] unreachable) /\
      clock (snd (check_deployment_status (lit "dep-123")
                    (prompt_world None [] unreachable)))
      = clock (prompt_world None [] unreachable)) \/
     ((exists headers,
         actions evs = [ERequest (status_request (lit "dep-123") headers)]) /\
      sent (snd (check_deployment_status (lit "dep-123")
                   (prompt_world None [] unreachable)))
      = S (sent (prompt_world None [] unreachable)) /\
      clock (snd (check_deployment_status (lit "dep-123")
                    (prompt_world None [] unreachable)))
      = clock (prompt_world None [] unreachable)
        + latency (net (prompt_world None [] unreachable)
                       (sent (prompt_world None [] unreachable))))).
Proof.
  apply (status_check_makes_at_most_one_status_query (lit "dep-123")
           (prompt_world None [] unreachable)
           (fst (check_deployment_status (lit "dep-123")
                   (prompt_world None [] unreachable)))).
  apply surjective_pairing.
Defined.

(** X6. With credentials that resolve, one status check sends exactly one
    request, a POST to BASE_URL/status whose only parameter is [id] and
    whose only header is Authorization, whatever the reply is; the request
    counter goes up by one and the clock by the latency of that exchange. *)
Theorem status_check_sends_one_post :
  forall deployment_id w u p v,
    resolved_credentials w = Some (u, p) ->
    auth_header_value u p = Some v ->
    exists r w' evs,
      check_deployment_status deployment_id w = (r, w') /\
      trace w' = trace w ++ evs /\
      actions evs =
        [ERequest (mkRequest POST (BASE_URL ++ lit "/status") [(lit "Authorization", v)]
                             [(lit "id", deployment_id)] [])] /\
      sent w' = S (sent w) /\
      clock w' = clock w + latency (net w (sent w)).
Proof.
  intros id w u p v Hr Hv.
  destruct (check_deployment_status_resolved id w u p v Hr Hv) as (evs & -> & _ & Hact).
  do 3 eexists. split; [reflexivity |]. cbn [trace sent clock].
  repeat split. exact Hact.
Qed.

Lemma status_check_sends_one_post_witness :
  exists r w' evs,
    check_deployment_status (lit "dep-123")
      (prompt_world None [lit "u"; lit "p"] (fun _ => json_reply 7 (in_state "PENDING")))
      = (r, w') /\
    trace w'
      = trace (prompt_world None [lit "u"; lit "p"]
                 (fun _ => json_reply 7 (in_state "PENDING"))) ++ evs /\
    actions evs =
      [ERequest (mkRequest POST (BASE_URL ++ lit "/status")
                           [(lit "Authorization", lit "Bearer dTpw")]
                           [(lit "id", lit "dep-123")] [])] /\
    sent w' = 1%nat /\
    clock w' = 0 + 7.
Proof.
  apply (status_check_sends_one_post (lit "dep-123")
           (prompt_world None [lit "u"; lit "p"] (fun _ => json_reply 7 (in_state "PENDING")))
           (lit "u") (lit "p") (lit "Bearer dTpw")); reflexivity.
Defined.

(** ** Further properties of the wait *)

(** X7. With a timeout of zero or less the loop condition fails at its
    first test: [wait_for_deployment] returns [None] after printing its
    first line and the timeout line only, with no status check and no
    sleep. *)
Theorem wait_with_no_budget_returns_at_once :
  forall fuel id target interval timeout w,
    timeout <= 0 ->
    wait_for_deployment (S fuel) id target interval timeout w =
      (Ok None,
       said_world
         [EPrint [FLit "Waiting for deployment to reach "; FStr target;
                  FLit " state..."];
          EPrint [FLit "Timeout reached. Deployment did not reach "; FStr target;
                  FLit " state within "; FTicks timeout; FLit " seconds."]] w).
Proof.
  intros fuel id target interval timeout w Hto.
  rewrite wait_for_deployment_unfold, wait_loop_unfold. cbn [clock said_world].
  destruct (Z.ltb_spec (clock w - clock w) timeout) as [Hlt | _]; [lia |].
  unfold said_world. cbn. rewrite <- app_assoc. reflexivity.
Qed.

Lemma wait_with_no_budget_returns_at_once_witness :
  wait_for_deployment 1 (lit "dep-123") (lit "PUBLISHED") 1000 0
    (demo_world (fun _ => json_reply 0 (in_state "PUBLISHED"))) =
    (Ok None,
     said_world
       [EPrint [FLit "Waiting for deployment to reach "; FStr (lit "PUBLISHED");
                FLit " state..."];
        EPrint [FLit "Timeout reached. Deployment did not reach "; FStr (lit "PUBLISHED");
                FLit " state within "; FTicks 0; FLit " seconds."]]
       (demo_world (fun _ => json_reply 0 (in_state "PUBLISHED")))).
Proof.
  apply (wait_with_no_budget_returns_at_once 0%nat (lit "dep-123") (lit "PUBLISHED") 1000 0
           (demo_world (fun _ => json_reply 0 (in_state "PUBLISHED")))).
  lia.
Defined.

Lemma quiet_check_cases id target w rc w1 :
  check_deployment_status id w = (rc, w1) ->
  quiet target (outcome (net w (sent w))) = true ->
  exists st, rc = Ok st /\
    (falsy st = true \/
     exists d : dict, st = Some d /\ state_is d target = false
                      /\ state_is d (lit "FAILED") = false).
Proof.
  intros Hc Hq.
  destruct (check_deployment_status_spec id w)
    as (rc' & w1' & evs1 & Hc' & _ & _ & _ & _ & Hcase).
  rewrite Hc in Hc'. injection Hc' as <- <-.
  destruct Hcase as [(_ & _ & ->) | (_ & _ & ->)].
  - exists None. split; [reflexivity | left; reflexivity].
  - unfold quiet in Hq. destruct (check_result _) as [st | e |]; try discriminate.
    exists st. split; [reflexivity |].
    destruct (falsy_or_dict st) as [Hf | (d & -> & Hd)]; [left; exact Hf | right].
    exists d. apply andb_true_iff in Hq. destruct Hq as [H1 H2].
    apply negb_true_iff in H1, H2. repeat split; assumption.
Qed.

(** X8. With a negative check interval and a positive timeout, a first
    check that does not end the wait is followed by [time.sleep] of a
    negative length: [wait_for_deployment] raises [ValueError], having slept
    not at all and sent at most one request. *)
Theorem negative_interval_raises_at_the_first_sleep :
  forall fuel id target interval timeout w,
    interval < 0 ->
    0 < timeout ->
    quiet target (outcome (net w (sent w))) = true ->
    exists w',
      wait_for_deployment (S fuel) id target interval timeout w = (Raise ValueError, w') /\
      slept w' = slept w /\ (sent w' <= S (sent w))%nat.
Proof.
  intros fuel id target interval timeout w Hi Hto Hq.
  rewrite wait_for_deployment_unfold, wait_loop_unfold. cbn [clock said_world].
  destruct (Z.ltb_spec (clock w - clock w) timeout) as [_ | Hge]; [| lia].
  set (w0 := said_world _ w).
  destruct (check_deployment_status_spec id w0)
    as (rc & w1 & evs1 & Hc & _ & Hsl & _ & _ & Hcase).
  destruct (quiet_check_cases id target w0 rc w1 Hc Hq) as (st & -> & Hst).
  destruct (after_check_bad_interval target interval st w1 Hi Hst) as (evs & Ha & _).
  erewrite bind_run; [| rewrite wait_body_unfold, (bind_run _ _ _ _ _ Hc); exact Ha].
  eexists. split; [reflexivity |]. cbn. split; [exact Hsl |].
  destruct Hcase as [(-> & _) | (-> & _)]; cbn; lia.
Qed.

Lemma negative_interval_raises_at_the_first_sleep_witness :
  exists w',
    wait_for_deployment 1 (lit "dep-123") (lit "PUBLISHED") (-1) 3000
      (demo_world (fun _ => json_reply 0 (in_state "VALIDATING"))) = (Raise ValueError, w') /\
    slept w' = slept (demo_world (fun _ => json_reply 0 (in_state "VALIDATING"))) /\
    (sent w' <= S (sent (demo_world (fun _ => json_reply 0 (in_state "VALIDATING")))))%nat.
Proof.
  apply (negative_interval_raises_at_the_first_sleep 0%nat (lit "dep-123") (lit "PUBLISHED")
           (-1) 3000 (demo_world (fun _ => json_reply 0 (in_state "VALIDATING"))));
    [lia | lia | reflexivity].
Defined.

(** X9. A 200 reply whose body is the empty JSON object is returned by
    [check_deployment_status] as the status it is, but the loop tests
    [not status]: an empty dict is falsy, so the turn prints the
    failed-check line, sleeps one interval and goes round again. *)
Theorem empty_status_object_counts_as_a_failed_check :
  forall id target interval w u p v resp,
    resolved_credentials w = Some (u, p) ->
    auth_header_value u p = Some v ->
    0 <= interval ->
    outcome (net w (sent w)) = Reply resp ->
    status_code resp = 200 ->
    json_body resp = Some (JObj []) ->
    fst (check_deployment_status id w) = Ok (Some []) /\
    exists w' evs,
      wait_body id target interval w = (Ok Continue, w') /\
      trace w' = trace w ++ evs /\
      In (EPrint [FLit "Failed to check status, retrying..."]) evs /\
      In (ESleep interval) evs.
Proof.
  intros id target interval w u p v resp Hr Hv Hi Hout Hcode Hbody.
  destruct (check_deployment_status_resolved id w u p v Hr Hv) as (evs & Hc & _).
  assert (E : check_result (outcome (net w (sent w))) = Ok (Some [])).
  { rewrite Hout. unfold check_result, status_of. rewrite Hcode, Hbody. reflexivity. }
  rewrite E in Hc.
  split; [rewrite Hc; reflexivity |].
  rewrite wait_body_unfold, (bind_run _ _ _ _ _ Hc).
  rewrite (after_check_retry target interval (Some []) _ eq_refl Hi).
  do 2 eexists. split; [reflexivity |]. unfold slept_world. cbn [trace].
  split; [rewrite <- app_assoc; reflexivity |].
  split; apply in_or_app; right; cbn; auto.
Qed.

Lemma empty_status_object_counts_as_a_failed_check_witness :
  fst (check_deployment_status (lit "dep-123") (demo_world (fun _ => json_reply 0 [])))
    = Ok (Some []) /\
  exists w' evs,
    wait_body (lit "dep-123") (lit "PUBLISHED") 1000 (demo_world (fun _ => json_reply 0 []))
      = (Ok Continue, w') /\
    trace w' = trace (demo_world (fun _ => json_reply 0 [])) ++ evs /\
    In (EPrint [FLit "Failed to check status, retrying..."]) evs /\
    In (ESleep 1000) evs.
Proof.
  apply (empty_status_object_counts_as_a_failed_check (lit "dep-123") (lit "PUBLISHED") 1000
           (demo_world (fun _ => json_reply 0 [])) (lit "u") (lit "p") (lit "Bearer dTpw")
           (mkResponse 200 [] (Some (JObj []))));
    try reflexivity. lia.
Defined.

(** X10. The test against the target state comes first: a status in the
    target state is returned at once after the one line
    [Deployment reached <target> state!], and its [errors] are not looked
    at, also when the target is FAILED and [errors] is null. *)
Theorem target_status_is_returned_without_listing_errors :
  forall id target interval w (d : dict) w1,
    check_deployment_status id w = (Ok (Some d), w1) ->
    state_is d target = true ->
    wait_body id target interval w =
      (Ok (Return (Some d)),
       said_world [EPrint [FLit "Deployment reached "; FStr target; FLit " state!"]] w1).
Proof.
  intros id target interval w d w1 Hc Ht.
  rewrite wait_body_unfold, (bind_run _ _ _ _ _ Hc).
  apply after_check_reached; [apply (state_is_nonempty d target Ht) | exact Ht].
Qed.

Lemma target_status_is_returned_without_listing_errors_witness :
  wait_body (lit "dep-123") (lit "FAILED") 1000
    (demo_world (fun _ => json_reply 0 failed_with_null_errors)) =
    (Ok (Return (Some failed_with_null_errors)),
     said_world [EPrint [FLit "Deployment reached "; FStr (lit "FAILED"); FLit " state!"]]
       (snd (check_deployment_status (lit "dep-123")
               (demo_world (fun _ => json_reply 0 failed_with_null_errors))))).
Proof.
  apply (target_status_is_returned_without_listing_errors (lit "dep-123") (lit "FAILED") 1000
           (demo_world (fun _ => json_reply 0 failed_with_null_errors))
           failed_with_null_errors).
  - vm_compute. reflexivity.
  - reflexivity.
Defined.

Lemma after_check_return target interval status w (d : dict) w' :
  after_check target interval status w = (Ok (Return (Some d)), w') ->
  status = Some d /\
  (state_is d target = true \/ state_is d (lit "FAILED") = true).
Proof.
  intros H. destruct (falsy_or_dict status) as [Hf | (d0 & -> & Hd)].
  - destruct (Z.lt_ge_cases interval 0) as [Hi | Hi].
    + destruct (after_check_bad_interval target interval status w Hi (or_introl Hf))
        as (evs & E & _). rewrite E in H. discriminate.
    + rewrite (after_check_retry target interval status w Hf Hi) in H. discriminate.
  - destruct (state_is d0 target) eqn:Ht.
    { rewrite (after_check_reached target interval d0 w Hd Ht) in H.
      injection H as <- _. split; [reflexivity | left; exact Ht]. }
    destruct (state_is d0 (lit "FAILED")) eqn:Hfl.
    { destruct (after_check_failed target interval d0 w Hd Ht Hfl) as (evs & E & _).
      rewrite E in H. destruct (errors_listable d0); [| discriminate].
      injection H as <- _. split; [reflexivity | right; exact Hfl]. }
    destruct (Z.lt_ge_cases interval 0) as [Hi | Hi].
    + destruct (after_check_bad_interval target interval (Some d0) w Hi) as (evs & E & _).
      { right. exists d0. repeat split; assumption. }
      rewrite E in H. discriminate.
    + rewrite (after_check_pending target interval d0 w Hd Ht Hfl Hi) in H. discriminate.
Qed.

Lemma wait_loop_result fuel id target interval timeout start :
  forall w (d : dict) w',
    wait_loop fuel id target interval timeout start w = (Ok (Some d), w') ->
    state_is d target = true \/ state_is d (lit "FAILED") = true.
Proof.
  induction fuel as [| fuel IH]; intros w d w' H; [discriminate |].
  rewrite wait_loop_unfold in H.
  destruct (clock w - start <? timeout); [| discriminate].
  rewrite wait_body_unfold in H. unfold bind in H.
  destruct (check_deployment_status id w) as [[status | e |] w1]; try discriminate.
  destruct (after_check target interval status w1) as [[[| st] | e |] w2] eqn:Ha;
    try discriminate.
  - exact (IH _ _ _ H).
  - unfold ret in H. injection H as -> ->.
    apply (after_check_return target interval status w1 d w' Ha).
Qed.

(** X11. Whatever the run, a status returned by [wait_for_deployment] is
    in the target state or in state FAILED. *)
Theorem wait_returns_only_target_or_failed_statuses :
  forall fuel id target interval timeout w (d : dict) w',
    wait_for_deployment fuel id target interval timeout w = (Ok (Some d), w') ->
    state_is d target = true \/ state_is d (lit "FAILED") = true.
Proof.
  intros fuel id target interval timeout w d w' H.
  rewrite wait_for_deployment_unfold in H.
  exact (wait_loop_result fuel id target interval timeout _ _ d w' H).
Qed.

Lemma wait_returns_only_target_or_failed_statuses_witness :
  state_is (in_state "FAILED") (lit "PUBLISHED") = true \/
  state_is (in_state "FAILED") (lit "FAILED") = true.
Proof.
  apply (wait_returns_only_target_or_failed_statuses 2%nat (lit "dep-123") (lit "PUBLISHED")
           1000 3000 (demo_world (fun _ => json_reply 0 (in_state "FAILED")))
           (in_state "FAILED")
           (snd (wait_for_deployment 2 (lit "dep-123") (lit "PUBLISHED") 1000 3000
                   (demo_world (fun _ => json_reply 0 (in_state "FAILED")))))).
  vm_compute. reflexivity.
Defined.

Lemma wait_loop_requests id target interval timeout start w0 :
  0 < interval ->
  (forall n, 0 <= latency (net w0 n)) ->
  (forall n, 0 <= oversleep w0 n) ->
  forall fuel w r w',
    net w = net w0 -> oversleep w = oversleep w0 ->
    wait_loop fuel id target interval timeout start w = (r, w') ->
    (sent w <= sent w')%nat /\
    (sent w' = sent w \/
     (Z.of_nat (sent w' - sent w) - 1) * interval < timeout - (clock w - start)).
Proof.
  intros Hi Hlat Hov. induction fuel as [| fuel IH]; intros w r w' Hn Ho H.
  - injection H as _ <-. split; [lia | left; reflexivity].
  - rewrite wait_loop_unfold in H.
    destruct (Z.ltb_spec (clock w - start) timeout) as [Hlt | Hge].
    + destruct (wait_body_progress id target interval w) as (r1 & w1 & Hb & Hn1 & Ho1 & Hs1 & Hc1).
      { rewrite Hn. apply Hlat. } { rewrite Ho. apply Hov. }
      rewrite (bind_run _ _ _ _ _ Hb) in H.
      assert (Hone : (sent w <= sent w1)%nat /\
                     (sent w1 = sent w \/
                      (Z.of_nat (sent w1 - sent w) - 1) * interval
                      < timeout - (clock w - start))).
      { split; [lia |]. destruct (Nat.eq_dec (sent w1) (sent w)) as [E | E]; [left; exact E |].
        right. replace (sent w1 - sent w)%nat with 1%nat by lia. lia. }
      destruct r1 as [[| st] | e |].
      * destruct (IH w1 r w' ltac:(congruence) ltac:(congruence) H) as (Hle & Hcount).
        split; [lia |].
        destruct Hcount as [E | Hb2].
        { rewrite E. apply Hone. }
        right.
        assert (Hm : Z.of_nat (sent w' - sent w) - 1 <= Z.of_nat (sent w' - sent w1)) by lia.
        apply (Z.mul_le_mono_nonneg_r _ _ interval) in Hm; [| lia].
        lia.
      * unfold ret in H. injection H as _ <-. exact Hone.
      * injection H as _ <-. exact Hone.
      * injection H as _ <-. exact Hone.
    + injection H as _ <-. cbn. split; [lia | left; reflexivity].
Qed.

(** X12. With a positive interval, and a clock that does not go backwards
    (latencies and oversleeps are not negative), a wait sends at most
    1 + max(0, timeout) / interval requests, however it ends. *)
Theorem wait_sends_a_bounded_number_of_requests :
  forall fuel id target interval timeout w r w',
    0 < interval ->
    (forall n, 0 <= latency (net w n)) ->
    (forall n, 0 <= oversleep w n) ->
    wait_for_deployment fuel id target interval timeout w = (r, w') ->
    Z.of_nat (sent w' - sent w) <= 1 + Z.max 0 timeout / interval.
Proof.
  intros fuel id target interval timeout w r w' Hi Hlat Hov H.
  rewrite wait_for_deployment_unfold in H.
  match type of H with wait_loop _ _ _ _ _ _ ?w0 = _ =>
    destruct (wait_loop_requests id target interval timeout (clock w) w Hi Hlat Hov
                fuel w0 r w' eq_refl eq_refl H) as (Hle & Hcount)
  end.
  cbn [sent clock said_world] in *.
  assert (Hq : 0 <= Z.max 0 timeout / interval) by (apply Z.div_pos; lia).
  destruct Hcount as [E | Hb]; [rewrite E, Nat.sub_diag; lia |].
  assert (Hlow : Z.of_nat (sent w' - sent w) - 1 <= Z.max 0 timeout / interval).
  { apply Z.div_le_lower_bound; [exact Hi |]. lia. }
  lia.
Qed.

Lemma wait_sends_a_bounded_number_of_requests_witness :
  Z.of_nat
    (sent (snd (wait_for_deployment 10 (lit "dep-123") (lit "PUBLISHED") 1000 3000
                  (demo_world (fun _ => json_reply 0 (in_state "VALIDATING")))))
     - sent (demo_world (fun _ => json_reply 0 (in_state "VALIDATING"))))
  <= 1 + Z.max 0 3000 / 1000.
Proof.
  apply (wait_sends_a_bounded_number_of_requests 10%nat (lit "dep-123") (lit "PUBLISHED")
           1000 3000 (demo_world (fun _ => json_reply 0 (in_state "VALIDATING")))
           (fst (wait_for_deployment 10 (lit "dep-123") (lit "PUBLISHED") 1000 3000
                   (demo_world (fun _ => json_reply 0 (in_state "VALIDATING")))))).
  - lia.
  - intros n. simpl. lia.
  - intros n. simpl. lia.
  - apply surjective_pairing.
Defined.

(** ** The dispatch of [main] *)

Lemma wait_for_deployment_spec fuel id target interval timeout w :
  exists r w' evs,
    wait_for_deployment fuel id target interval timeout w = (r, w') /\
    trace w' = trace w ++ evs /\
    Forall (waiting id interval) evs.
Proof.
  rewrite wait_for_deployment_unfold.
  match goal with |- context [wait_loop _ _ _ _ _ _ ?w0] =>
    destruct (wait_loop_spec fuel id target interval timeout (clock w) w0)
      as (r & w' & evs & Hrun & _ & Htr & Hev & _)
  end.
  exists r, w'. eexists. split; [exact Hrun |]. split.
  - rewrite Htr. cbn. rewrite <- app_assoc. reflexivity.
  - constructor; [exact I | exact Hev].
Qed.

(** X13. [main] for [upload --wait], when the upload returned a non-empty
    identifier: the run is the upload followed by [wait_for_deployment] on
    that identifier with the defaults (PUBLISHED, 10 s, 1800 s); the result
    of the wait is dropped, an exception it raises goes through, and after
    the upload only status queries for that identifier, sleeps of the
    default interval and console output occur. *)
Theorem upload_with_wait_polls_the_returned_identifier :
  forall fuel bundle_path name auto_publish w id w1,
    upload_bundle bundle_path name auto_publish w = (Ok (Some id), w1) ->
    id <> [] ->
    exists r w2 evs,
      wait_for_deployment fuel id default_target_state default_check_interval
                          default_timeout w1 = (r, w2) /\
      main fuel (CmdUpload bundle_path name auto_publish true) w = (discard r, w2) /\
      trace w2 = trace w1 ++ evs /\
      Forall (waiting id default_check_interval) evs.
Proof.
  intros fuel path name auto w id w1 Hup Hid.
  destruct (wait_for_deployment_spec fuel id default_target_state default_check_interval
              default_timeout w1) as (r & w2 & evs & Hrun & Htr & Hev).
  exists r, w2, evs. split; [exact Hrun |]. split; [| split; assumption].
  unfold main. rewrite (bind_run _ _ _ _ _ Hup).
  destruct id as [| c id]; [contradiction |].
  rewrite (bind_run _ _ _ _ _ Hrun). destruct r; reflexivity.
Qed.

Lemma upload_with_wait_polls_the_returned_identifier_witness :
  exists r w2 evs,
    wait_for_deployment 3 (lit "dep-123") default_target_state default_check_interval
      default_timeout
      (snd (upload_bundle (lit "bundle.zip") None true
              (demo_world (script [plain_reply 0 201 "dep-123"]
                                  (json_reply 0 (in_state "PUBLISHED")))))) = (r, w2) /\
    main 3 (CmdUpload (lit "bundle.zip") None true true)
      (demo_world (script [plain_reply 0 201 "dep-123"]
                          (json_reply 0 (in_state "PUBLISHED")))) = (discard r, w2) /\
    trace w2 =
      trace (snd (upload_bundle (lit "bundle.zip") None true
                    (demo_world (script [plain_reply 0 201 "dep-123"]
                                        (json_reply 0 (in_state "PUBLISHED")))))) ++ evs /\
    Forall (waiting (lit "dep-123") default_check_interval) evs.
Proof.
  apply (upload_with_wait_polls_the_returned_identifier 3%nat (lit "bundle.zip") None true
           (demo_world (script [plain_reply 0 201 "dep-123"]
                               (json_reply 0 (in_state "PUBLISHED"))))
           (lit "dep-123")).
  - vm_compute. reflexivity.
  - discriminate.
Defined.

(** X14. [main] tests [deployment_id and args.wait]: when the upload
    returned [None], or the empty string (a 201 reply whose body is blank),
    no wait is started, with or without [--wait]; [main] ends in the world
    the upload left. *)
Theorem upload_without_identifier_is_not_waited_for :
  forall fuel bundle_path name auto_publish wait w id w1,
    upload_bundle bundle_path name auto_publish w = (Ok id, w1) ->
    id = None \/ id = Some [] ->
    main fuel (CmdUpload bundle_path name auto_publish wait) w = (Ok tt, w1).
Proof.
  intros fuel path name auto wait w id w1 Hup Hid.
  unfold main. rewrite (bind_run _ _ _ _ _ Hup).
  destruct Hid as [-> | ->]; reflexivity.
Qed.

Lemma upload_without_identifier_is_not_waited_for_witness :
  main 3 (CmdUpload (lit "bundle.zip") None true true)
    (demo_world (fun _ => plain_reply 0 201 "   ")) =
    (Ok tt,
     snd (upload_bundle (lit "bundle.zip") None true
            (demo_world (fun _ => plain_reply 0 201 "   ")))).
Proof.
  apply (upload_without_identifier_is_not_waited_for 3%nat (lit "bundle.zip") None true true
           (demo_world (fun _ => plain_reply 0 201 "   ")) (Some [])).
  - vm_compute. reflexivity.
  - right. reflexivity.
Defined.

(** X15. [main] for [publish --wait], when the publish succeeded: the run
    is the publish followed by [wait_for_deployment] on the same deployment
    with the defaults; after the publish only status queries for that
    deployment, sleeps of the default interval and console output occur. *)
Theorem publish_with_wait_polls_the_same_deployment :
  forall fuel deployment_id w w1,
    publish_deployment deployment_id w = (Ok true, w1) ->
    exists r w2 evs,
      wait_for_deployment fuel deployment_id default_target_state
                          default_check_interval default_timeout w1 = (r, w2) /\
      main fuel (CmdPublish deployment_id true) w = (discard r, w2) /\
      trace w2 = trace w1 ++ evs /\
      Forall (waiting deployment_id default_check_interval) evs.
Proof.
  intros fuel id w w1 Hpub.
  destruct (wait_for_deployment_spec fuel id default_target_state default_check_interval
              default_timeout w1) as (r & w2 & evs & Hrun & Htr & Hev).
  exists r, w2, evs. split; [exact Hrun |]. split; [| split; assumption].
  unfold main. rewrite (bind_run _ _ _ _ _ Hpub). cbn [andb].
  rewrite (bind_run _ _ _ _ _ Hrun). destruct r; reflexivity.
Qed.

Lemma publish_with_wait_polls_the_same_deployment_witness :
  exists r w2 evs,
    wait_for_deployment 3 (lit "dep-123") default_target_state default_check_interval
      default_timeout
      (snd (publish_deployment (lit "dep-123")
              (demo_world (script [plain_reply 0 204 "done"]
                                  (json_reply 0 (in_state "PUBLISHED")))))) = (r, w2) /\
    main 3 (CmdPublish (lit "dep-123") true)
      (demo_world (script [plain_reply 0 204 "done"]
                          (json_reply 0 (in_state "PUBLISHED")))) = (discard r, w2) /\
    trace w2 =
      trace (snd (publish_deployment (lit "dep-123")
                    (demo_world (script [plain_reply 0 204 "done"]
                                        (json_reply 0 (in_state "PUBLISHED")))))) ++ evs /\
    Forall (waiting (lit "dep-123") default_check_interval) evs.
Proof.
  apply (publish_with_wait_polls_the_same_deployment 3%nat (lit "dep-123")
           (demo_world (script [plain_reply 0 204 "done"]
                               (json_reply 0 (in_state "PUBLISHED"))))).
  vm_compute. reflexivity.
Defined.

(** ** Credentials and the header *)

(** X17. When the environment does not hold both a non-empty username
    and a non-empty password, neither value of the environment is used:
    after the one notice and the two prompts, username and password are the
    next two typed lines, and the header is built from them. *)
Theorem incomplete_environment_credentials_are_not_used :
  forall w u p rest v,
    env_credentials w = None ->
    stdin w = u :: p :: rest ->
    auth_header_value u p = Some v ->
    get_auth_header w =
      (Ok [(lit "Authorization", v)],
       mkWorld (environ w) rest (net w) (sent w) (oversleep w) (slept w)
               (clock w) (fs w) (opened w)
               (trace w
                ++ [EPrint [FLit "Credentials not found in environment variables."];
                    EPrompt "Enter your Sonatype username: ";
                    EPrompt "Enter your Sonatype password/token: "])).
Proof.
  intros w u p rest v He Hs Hv.
  assert (Hr : resolved_credentials w = Some (u, p)).
  { unfold resolved_credentials. rewrite He, Hs. reflexivity. }
  rewrite (get_auth_header_resolved w u p v Hr Hv).
  unfold auth_stdin, auth_events. rewrite He, Hs. reflexivity.
Qed.

Lemma incomplete_environment_credentials_are_not_used_witness :
  fst (get_auth_header
         (prompt_world (Some (lit "alice")) [lit "u"; lit "p"] unreachable))
  = Ok [(lit "Authorization", lit "Bearer dTpw")].
Proof.
  rewrite (incomplete_environment_credentials_are_not_used
             (prompt_world (Some (lit "alice")) [lit "u"; lit "p"] unreachable)
             (lit "u") (lit "p") [] (lit "Bearer dTpw") eq_refl eq_refl eq_refl).
  reflexivity.
Defined.

Lemma auth_header_decodes u p v :
  auth_header_value u p = Some v ->
  decode_auth_header v = Some (auth_string u p).
Proof.
  unfold auth_header_value. intros H.
  destruct (Utf8.encode (auth_string u p)) as [raw |] eqn:He; [| discriminate].
  apply Some_inj in H. subst v. unfold decode_auth_header. rewrite strip_prefix_app.
  rewrite (b64_roundtrip raw (encode_octets _ _ He)).
  apply utf8_roundtrip, He.
Qed.

Lemma colon_is_58 : lit ":" = [58%N].
Proof. reflexivity. Qed.

Lemma split_at_first_colon (u u' p p' : pystr) :
  ~ In 58%N u -> ~ In 58%N u' ->
  u ++ 58%N :: p = u' ++ 58%N :: p' -> u = u' /\ p = p'.
Proof.
  revert u'. induction u as [| c u IH]; intros [| c' u'] Hu Hu' H; cbn in *.
  - injection H as ->. split; reflexivity.
  - injection H as <- _. contradiction Hu'. left. reflexivity.
  - injection H as -> _. contradiction Hu. left. reflexivity.
  - injection H as -> H.
    destruct (IH u') as [-> ->]; try assumption.
    + intros Hin. apply Hu. right. exact Hin.
    + intros Hin. apply Hu'. right. exact Hin.
    + split; reflexivity.
Qed.

(** X18. Two pairs of credentials give the same header value exactly when
    their joined strings username:password are the same. *)
Theorem equal_headers_iff_equal_joined_credentials :
  forall u p u' p' v v',
    auth_header_value u p = Some v ->
    auth_header_value u' p' = Some v' ->
    (v = v' <-> u ++ lit ":" ++ p = u' ++ lit ":" ++ p').
Proof.
  intros u p u' p' v v' H H'. split.
  - intros ->. pose proof (auth_header_decodes u p v' H) as D.
    pose proof (auth_header_decodes u' p' v' H') as D'.
    rewrite D in D'. injection D' as E. exact E.
  - intros E. unfold auth_header_value, auth_string in H, H'. rewrite E in H.
    rewrite H in H'. apply Some_inj in H'. exact H'.
Qed.

Lemma equal_headers_iff_equal_joined_credentials_witness :
  lit "Bearer YTpiOmM=" = lit "Bearer YTpiOmM=" <->
  lit "a:b" ++ lit ":" ++ lit "c" = lit "a" ++ lit ":" ++ lit "b:c".
Proof.
  apply (equal_headers_iff_equal_joined_credentials (lit "a:b") (lit "c") (lit "a")
           (lit "b:c")); reflexivity.
Defined.

(** X19. The header does not record where the username ends: moving text
    across the first colon gives the same header. When neither username
    holds a colon, equal headers come from equal usernames and equal
    passwords. *)
Theorem colon_in_username_is_not_told_apart :
  (forall u p q,
     auth_header_value (u ++ lit ":" ++ p) q = auth_header_value u (p ++ lit ":" ++ q)) /\
  (forall u p u' p' v,
     ~ In 58%N u -> ~ In 58%N u' ->
     auth_header_value u p = Some v ->
     auth_header_value u' p' = Some v ->
     u = u' /\ p = p').
Proof.
  split.
  - intros u p q. unfold auth_header_value, auth_string.
    rewrite <- !app_assoc. reflexivity.
  - intros u p u' p' v Hu Hu' H H'.
    pose proof (auth_header_decodes u p v H) as D.
    pose proof (auth_header_decodes u' p' v H') as D'.
    rewrite D in D'. injection D' as E. unfold auth_string in E.
    rewrite colon_is_58 in E. cbn [app] in E.
    exact (split_at_first_colon u u' p p' Hu Hu' E).
Qed.

Lemma colon_in_username_is_not_told_apart_witness :
  lit "u" = lit "u" /\ lit "p" = lit "p".
Proof.
  apply (proj2 colon_in_username_is_not_told_apart (lit "u") (lit "p") (lit "u") (lit "p")
           (lit "Bearer dTpw")).
  - vm_compute. intros [H | []]. discriminate H.
  - vm_compute. intros [H | []]. discriminate H.
  - reflexivity.
  - reflexivity.
Defined.

Lemma char_of_ascii i : (Base64.char_of i < 128)%N.
Proof.
  unfold Base64.char_of.
  assert (H : Forall (fun c => (c < 128)%N) Base64.alphabet).
  { vm_compute. repeat constructor. }
  destruct (nth_in_or_default (N.to_nat i) Base64.alphabet 0%N) as [Hin | ->]; [| lia].
  rewrite Forall_forall in H. apply H, Hin.
Qed.

Lemma b64encode_ascii bs : Forall (fun c => (c < 128)%N) (Base64.b64encode bs).
Proof.
  induction bs as [| a | a b | a b c l IH] using list_ind3; cbn [Base64.b64encode].
  - constructor.
  - repeat constructor; try apply char_of_ascii; reflexivity.
  - repeat constructor; try apply char_of_ascii; reflexivity.
  - repeat (constructor; [apply char_of_ascii |]). exact IH.
Qed.

(** X20. Whatever the credentials, the header value is ASCII and starts
    with [Bearer ]: every code point is below 128, and the prefix can be
    stripped. *)
Theorem auth_header_value_is_ascii :
  forall u p v,
    auth_header_value u p = Some v ->
    Forall (fun c => (c < 128)%N) v /\ strip_prefix (lit "Bearer ") v <> None.
Proof.
  intros u p v H. unfold auth_header_value in H.
  destruct (Utf8.encode (auth_string u p)) as [raw |]; [| discriminate].
  apply Some_inj in H. subst v. split.
  - apply Forall_app. split; [vm_compute; repeat constructor | apply b64encode_ascii].
  - rewrite strip_prefix_app. discriminate.
Qed.

Lemma auth_header_value_is_ascii_witness :
  Forall (fun c => (c < 128)%N) (lit "Bearer dTpw") /\
  strip_prefix (lit "Bearer ") (lit "Bearer dTpw") <> None.
Proof.
  apply (auth_header_value_is_ascii (lit "u") (lit "p") (lit "Bearer dTpw")).
  reflexivity.
Defined.

(** ** The identifier an upload returns *)

Lemma lstrip_head s c rest : lstrip s = c :: rest -> is_space c = false.
Proof.
  induction s as [| x s IH]; cbn; [discriminate |].
  destruct (is_space x) eqn:Hx; [exact IH |].
  intros [= <- _]. exact Hx.
Qed.

Lemma lstrip_fixed s :
  (forall c rest, s = c :: rest -> is_space c = false) -> lstrip s = s.
Proof.
  destruct s as [| c s]; [reflexivity |].
  intros H. cbn. rewrite (H c s eq_refl). reflexivity.
Qed.

Lemma lstrip_suffix s : exists pre, s = pre ++ lstrip s.
Proof.
  induction s as [| x s [pre IH]]; [exists []; reflexivity |].
  cbn. destruct (is_space x).
  - exists (x :: pre). cbn. f_equal. exact IH.
  - exists []. reflexivity.
Qed.

Lemma strip_last s init c : strip s = init ++ [c] -> is_space c = false.
Proof.
  unfold strip, rstrip. intros H.
  apply (f_equal (@rev N)) in H. rewrite rev_involutive, rev_app_distr in H.
  cbn in H. exact (lstrip_head _ _ _ H).
Qed.

Lemma strip_head s c rest : strip s = c :: rest -> is_space c = false.
Proof.
  unfold strip, rstrip. intros H.
  destruct (lstrip_suffix (rev (lstrip s))) as [pre Hpre].
  apply (f_equal (@rev N)) in Hpre. rewrite rev_involutive, rev_app_distr, H in Hpre.
  cbn in Hpre. exact (lstrip_head _ _ _ Hpre).
Qed.

Lemma strip_strip s : strip (strip s) = strip s.
Proof.
  assert (H1 : lstrip (strip s) = strip s).
  { apply lstrip_fixed. intros c rest. apply strip_head. }
  unfold strip at 1. rewrite H1. unfold rstrip.
  rewrite lstrip_fixed; [apply rev_involutive |].
  intros c rest Hc. apply (strip_last s (rev rest) c).
  rewrite <- (rev_involutive (strip s)), Hc. reflexivity.
Qed.

Lemma upload_bundle_identifier path name auto w id w' :
  upload_bundle path name auto w = (Ok (Some id), w') ->
  exists resp,
    outcome (net w (sent w)) = Reply resp /\ status_code resp = 201 /\
    id = strip (text resp).
Proof.
  unfold upload_bundle, open_rb. run.
  destruct (fs w path) as [e |]; run; [discriminate |].
  match goal with |- context [get_auth_header ?w1] =>
    destruct (get_auth_header_spec w1) as (ra & stdin' & evs & -> & _ & Hra) end.
  destruct ra as [headers | e |]; [| | contradiction].
  - unfold http. run. cbn [net sent].
    destruct (outcome (net w (sent w))) as [e | resp].
    + destruct (is_Exception e); run; discriminate.
    + destruct (Z.eqb_spec (status_code resp) 201) as [E | E]; run; [| discriminate].
      intros [= <- _]. exists resp. repeat split. exact E.
  - cbn in Hra. rewrite Hra. run. discriminate.
Qed.

(** X21. An identifier returned by [upload_bundle] comes from a reply
    with status 201 and is its body stripped: it neither starts nor ends
    with white space, and stripping it again changes nothing. *)
Theorem uploaded_identifier_is_a_stripped_201_body :
  forall bundle_path name auto_publish w id w',
    upload_bundle bundle_path name auto_publish w = (Ok (Some id), w') ->
    (exists resp,
       outcome (net w (sent w)) = Reply resp /\ status_code resp = 201 /\
       id = strip (text resp)) /\
    (forall c rest, id = c :: rest -> is_space c = false) /\
    (forall init c, id = init ++ [c] -> is_space c = false) /\
    strip id = id.
Proof.
  intros path name auto w id w' H.
  destruct (upload_bundle_identifier path name auto w id w' H) as (resp & Hout & Hc & ->).
  split; [exists resp; repeat split; assumption |].
  split; [intros c rest; apply strip_head |].
  split; [intros init c; apply strip_last | apply strip_strip].
Qed.

Lemma uploaded_identifier_is_a_stripped_201_body_witness :
  (exists resp,
     outcome (net (demo_world (fun _ => plain_reply 0 201 " dep-123 ")) 0%nat) = Reply resp /\
     status_code resp = 201 /\ lit "dep-123" = strip (text resp)) /\
  (forall c rest, lit "dep-123" = c :: rest -> is_space c = false) /\
  (forall init c, lit "dep-123" = init ++ [c] -> is_space c = false) /\
  strip (lit "dep-123") = lit "dep-123".
Proof.
  apply (uploaded_identifier_is_a_stripped_201_body (lit "bundle.zip") None true
           (demo_world (fun _ => plain_reply 0 201 " dep-123 ")) (lit "dep-123")
           (snd (upload_bundle (lit "bundle.zip") None true
                   (demo_world (fun _ => plain_reply 0 201 " dep-123 "))))).
  vm_compute. reflexivity.
Defined.

(** ** The first status that ends a wait *)







(** ** Typed credentials *)

(** X23. Typed credentials are not kept: with none in the environment,
    two status checks in a row read four lines, and the second request
    carries the header of the second pair. *)
Theorem typed_credentials_are_asked_for_at_every_request :
  forall id w u p u2 p2 rest v v2,
    env_credentials w = None ->
    stdin w = u :: p :: u2 :: p2 :: rest ->
    auth_header_value u p = Some v ->
    auth_header_value u2 p2 = Some v2 ->
    exists r1 w1 r2 w2 evs,
      check_deployment_status id w = (r1, w1) /\
      check_deployment_status id w1 = (r2, w2) /\
      stdin w2 = rest /\
      trace w2 = trace w ++ evs /\
      actions evs =
        [ERequest (status_request id [(lit "Authorization", v)]);
         ERequest (status_request id [(lit "Authorization", v2)])].
Proof.
  intros id w u p u2 p2 rest v v2 He Hs Hv Hv2.
  assert (Hr : resolved_credentials w = Some (u, p)).
  { unfold resolved_credentials. rewrite He, Hs. reflexivity. }
  destruct (check_deployment_status_resolved id w u p v Hr Hv) as (evs1 & Hc1 & _ & Ha1).
  assert (Hst : auth_stdin w = u2 :: p2 :: rest).
  { unfold auth_stdin. rewrite He, Hs. reflexivity. }
  rewrite Hst in Hc1.
  match type of Hc1 with _ = (_, ?w1) =>
    assert (Hr2 : resolved_credentials w1 = Some (u2, p2));
    [ unfold resolved_credentials, env_credentials in *; cbn [environ stdin];
      destruct (environ w (lit "SONATYPE_USERNAME")) as [[| c0 u0] |];
        destruct (environ w (lit "SONATYPE_PASSWORD")) as [[| d0 p0] |];
        try discriminate; reflexivity
    | destruct (check_deployment_status_resolved id w1 u2 p2 v2 Hr2 Hv2)
        as (evs2 & Hc2 & _ & Ha2) ]
  end.
  do 5 eexists. split; [exact Hc1 |]. split; [exact Hc2 |].
  cbn [stdin trace]. split.
  - unfold auth_stdin, env_credentials in *. cbn [environ stdin].
    destruct (environ w (lit "SONATYPE_USERNAME")) as [[| c0 u0] |];
      destruct (environ w (lit "SONATYPE_PASSWORD")) as [[| d0 p0] |];
      try discriminate; reflexivity.
  - split; [rewrite <- app_assoc; reflexivity |].
    rewrite actions_app, Ha1, Ha2. reflexivity.
Qed.

Lemma typed_credentials_are_asked_for_at_every_request_witness :
  exists r1 w1 r2 w2 evs,
    check_deployment_status (lit "dep-123")
      (prompt_world None [lit "u"; lit "p"; lit "a"; lit "b"]
                    (fun _ => json_reply 0 (in_state "PENDING"))) = (r1, w1) /\
    check_deployment_status (lit "dep-123") w1 = (r2, w2) /\
    stdin w2 = [] /\
    trace w2 =
      trace (prompt_world None [lit "u"; lit "p"; lit "a"; lit "b"]
                          (fun _ => json_reply 0 (in_state "PENDING"))) ++ evs /\
    actions evs =
      [ERequest (status_request (lit "dep-123") [(lit "Authorization", lit "Bearer dTpw")]);
       ERequest (status_request (lit "dep-123") [(lit "Authorization", lit "Bearer YTpi")])].
Proof.
  apply (typed_credentials_are_asked_for_at_every_request (lit "dep-123")
           (prompt_world None [lit "u"; lit "p"; lit "a"; lit "b"]
                         (fun _ => json_reply 0 (in_state "PENDING")))
           (lit "u") (lit "p") (lit "a") (lit "b") [] (lit "Bearer dTpw")
           (lit "Bearer YTpi")); reflexivity.
Defined.

Lemma check_deployment_status_unresolved id w :
  resolved_credentials w = None ->
  exists evs,
    check_deployment_status id w =
      (Ok None,
       mkWorld (environ w) [] (net w) (sent w) (oversleep w) (slept w)
               (clock w) (fs w) (opened w) (trace w ++ evs))
    /\ no_request evs.
Proof.
  intros Hr.
  assert (Hf : auth_failure w = Some EOFError).
  { unfold auth_failure. rewrite Hr. reflexivity. }
  rewrite check_deployment_status_unfold. run.
  match goal with |- context [get_auth_header ?w1] =>
    destruct (get_auth_header_failure w1 EOFError Hf) as (stdin' & evs & -> & Hevs & He & Hs)
  end.
  rewrite (Hs Hr). cbn [is_Exception EOFError]. run.
  eexists. split; [rewrite <- !app_assoc; reflexivity |].
  unfold no_request.
  constructor; [exact I |]. apply Forall_app. split.
  - apply console_no_request, Hevs.
  - repeat constructor.
Qed.

Lemma unresolved_without_input environ0 net0 sent0 over0 slept0 clock0 fs0 opened0 trace0 w :
  resolved_credentials w = None ->
  environ0 = environ w ->
  resolved_credentials
    (mkWorld environ0 [] net0 sent0 over0 slept0 clock0 fs0 opened0 trace0) = None.
Proof.
  unfold resolved_credentials, env_credentials. cbn [environ stdin]. intros H ->.
  destruct (environ w (lit "SONATYPE_USERNAME")) as [[| c0 u0] |];
    destruct (environ w (lit "SONATYPE_PASSWORD")) as [[| d0 p0] |];
    try discriminate; reflexivity.
Qed.

Lemma wait_loop_offline id target interval timeout start over0 :
  0 < interval ->
  (forall n, 0 <= over0 n) ->
  forall fuel w,
    resolved_credentials w = None ->
    oversleep w = over0 ->
    (Z.to_nat (timeout - (clock w - start)) < fuel)%nat ->
    exists w',
      wait_loop fuel id target interval timeout start w = (Ok None, w') /\
      sent w' = sent w.
Proof.
  intros Hi Hov. induction fuel as [| fuel IH]; intros w Hr Ho Hfuel; [lia |].
  rewrite wait_loop_unfold.
  destruct (Z.ltb_spec (clock w - start) timeout) as [Hlt | Hge].
  - destruct (check_deployment_status_unresolved id w Hr) as (evs & Hc & _).
    erewrite bind_run;
      [| rewrite wait_body_unfold, (bind_run _ _ _ _ _ Hc);
         apply (after_check_retry target interval None _ eq_refl); lia].
    cbv beta iota. unfold slept_world.
    cbn [environ stdin net sent oversleep slept clock fs opened trace].
    match goal with |- context [wait_loop fuel _ _ _ _ _ ?w2] =>
      destruct (IH w2) as (w' & Hrun & Hs) end.
    + apply (unresolved_without_input _ _ _ _ _ _ _ _ _ w Hr eq_refl).
    + exact Ho.
    + cbn [clock]. pose proof (Hov (slept w)) as H0. rewrite Ho. lia.
    + exists w'. split; [exact Hrun | exact Hs].
  - eexists. split; reflexivity.
Qed.

(** X24. When no credentials are in the environment and no line can be
    read, every check of a wait fails before its request: with a positive
    interval and sleeps that do not end early, the wait ends, returns
    [None] no earlier than [timeout] after its start, and has sent no
    request at all. *)
Theorem wait_without_credentials_times_out_offline :
  forall id target interval timeout w,
    resolved_credentials w = None ->
    0 < interval ->
    (forall n, 0 <= oversleep w n) ->
    exists budget, forall fuel, (budget <= fuel)%nat ->
      exists w',
        wait_for_deployment fuel id target interval timeout w = (Ok None, w') /\
        sent w' = sent w /\
        timeout <= clock w' - clock w.
Proof.
  intros id target interval timeout w Hr Hi Hov.
  exists (S (Z.to_nat timeout)). intros fuel Hfuel.
  rewrite wait_for_deployment_unfold.
  set (w0 := said_world _ w).
  destruct (wait_loop_offline id target interval timeout (clock w) (oversleep w) Hi Hov
              fuel w0) as (w' & Hrun & Hs); try reflexivity.
  { exact Hr. }
  { subst w0. cbn. lia. }
  destruct (wait_loop_spec fuel id target interval timeout (clock w) w0)
    as (r & w'' & evs & Hrun' & _ & _ & _ & Hto).
  rewrite Hrun in Hrun'. injection Hrun' as <- <-.
  exists w'. split; [exact Hrun |]. split; [exact Hs |]. apply Hto. reflexivity.
Qed.

Lemma wait_without_credentials_times_out_offline_witness :
  exists budget, forall fuel, (budget <= fuel)%nat ->
    exists w',
      wait_for_deployment fuel (lit "dep-123") (lit "PUBLISHED") 1000 3000
        (prompt_world None [] (fun _ => json_reply 0 (in_state "PUBLISHED"))) = (Ok None, w') /\
      sent w' = sent (prompt_world None [] (fun _ => json_reply 0 (in_state "PUBLISHED"))) /\
      3000 <= clock w'
              - clock (prompt_world None [] (fun _ => json_reply 0 (in_state "PUBLISHED"))).
Proof.
  apply (wait_without_credentials_times_out_offline (lit "dep-123") (lit "PUBLISHED")
           1000 3000 (prompt_world None [] (fun _ => json_reply 0 (in_state "PUBLISHED")))).
  - reflexivity.
  - lia.
  - intros n. simpl. lia.
Defined.
